(** * The crawl pipeline of [fiction_scraper.spider.Spider]

    A shallow embedding of [src/fiction_scraper/spider.py]: the abstract
    base class [Spider] with its [crawl], [fetch], [_generate_meadata_elements]
    and [_filter_name] methods, and the properties its specification states
    about them.

    Conventions of the embedding.
    - A Python [str] is a Rocq [string]; a [bytes] value is the [string] of
      its bytes, and a [str] is identified with its UTF-8 encoding.
    - A call either returns a value or raises: [outcome].  State survives a
      raise, as it does in Python, so the monad [M] returns the state next
      to the outcome.
    - The state holds what a crawl can mutate or emit: the [metadata] dict
      of the instance and the [trace] of what the crawl did to the outside
      (log records, the steps of the [parse] generator, calls of filters,
      reads of the metadata, writes to the output file).
    - The abstract members of [Spider] are the fields of a record.  What
      [parse(url)] does is given as the finite list of steps its generator
      takes; a generator that never ends makes [crawl] diverge in
      [E.BODY( *self.parse(url))] and is outside the model.
    - [requests] and [lxml] are not part of the repository.  Their
      functions are parameters of the sections that use them.  Where a
      property turns on how lxml defines one of them, that definition is
      written out ([html_tostring]); where it turns on which calls may
      raise, each call returns or raises ([Raising]). *)

From Stdlib Require Import String Ascii List Bool Arith Lia.
Import ListNotations.
Open Scope string_scope.
Open Scope list_scope.

Set Warnings "-register-all".

(** ** Data model *)

(** An lxml HTML element: tag, attributes in document order, text, children. *)
Inductive node : Type :=
| Element (tag : string) (attrib : list (string * string))
          (text : option string) (children : list node).

Definition tag_of (n : node) : string :=
  match n with Element t _ _ _ => t end.

Definition attrib_of (n : node) : list (string * string) :=
  match n with Element _ a _ _ => a end.

Definition children_of (n : node) : list node :=
  match n with Element _ _ _ c => c end.

(** [lxml.html.builder], imported by the source as [E]. *)
Module E.
Definition META (kwargs : list (string * string)) : node :=
  Element "meta" kwargs None [].
Definition TITLE (content : string) : node :=
  Element "title" [] (Some content) [].
Definition HEAD (children : list node) : node :=
  Element "head" [] None children.
Definition BODY (children : list node) : node :=
  Element "body" [] None children.
Definition HTML (head body : node) : node :=
  Element "html" [] None [head; body].
End E.

(** A raised Python exception: its class and its message. *)
Inductive exn : Type :=
| Exception (cls msg : string).

Inductive outcome (A : Type) : Type :=
| Return (a : A)
| Raises (e : exn).
Arguments Return {A} a.
Arguments Raises {A} e.

(** A Python [dict] from [str] to [str]: the items in insertion order.
    [setitem] keeps the position of a key that is already present. *)
Definition dict : Type := list (string * string).

Fixpoint setitem (k v : string) (d : dict) : dict :=
  match d with
  | [] => [(k, v)]
  | (k', v') :: d' =>
      if String.eqb k' k then (k', v) :: d' else (k', v') :: setitem k v d'
  end.

(** [d.pop(k, None)]. *)
Fixpoint popitem (k : string) (d : dict) : dict :=
  match d with
  | [] => []
  | (k', v') :: d' =>
      if String.eqb k' k then d' else (k', v') :: popitem k d'
  end.

Definition items (d : dict) : list (string * string) := d.
Definition keys (d : dict) : list string := map fst d.

(** What the [parse] generator of a concrete spider does, step by step:
    it yields an element, writes [self.metadata[k] = v], drops a key, or
    raises.  A generator is the finite list of its steps; the steps after a
    [Raise] are never run. *)
Inductive action : Type :=
| Yield (n : node)
| SetItem (k v : string)
| PopItem (k : string)
| Raise (e : exn).

(** A filter: a callable run on the body for its effect on it.  [call] gives
    the contents of the body after the in-place mutation, or the exception.
    [own_name] is [(__module__, __qualname__)] of the callable when it has a
    [__qualname__] (a function or a class), [type_name] the same pair for
    its type. *)
Record callable : Type := {
  own_name : option (string * string);
  type_name : string * string;
  call : node -> outcome node
}.

(** The [output_file] argument of [crawl]: [None], a filename, or a file-like
    object.  [truth] of a file-like object is what [bool(obj)] gives: [True]
    unless the class defines [__bool__] or [__len__] otherwise. *)
Inductive output : Type :=
| NoOutput
| Filename (path : string)
| FileObject (truth : bool) (fd : nat).

Definition truthy (o : output) : bool :=
  match o with
  | NoOutput => false
  | Filename path => negb (String.eqb path "")
  | FileObject truth _ => truth
  end.

Inductive level : Type := DEBUG | INFO | WARNING | CRITICAL.

Inductive event : Type :=
| Log (lvl : level) (msg : string) (args : list string)
| Gen (a : action)                          (* the parse generator ran a step *)
| Call (f : callable) (body : node)         (* [f(body)], body as [f] found it *)
| Items (snapshot : dict)                   (* [self.metadata.items()] was read *)
| ToString (doc : node)                     (* [tostring(doc, ...)] was called *)
| Wrote (o : output) (data : string).       (* bytes put into the output file *)

Record state : Type := {
  metadata : dict;
  trace : list event
}.

(** A concrete spider: the abstract members a subclass supplies, and the
    class attribute [filters].  Its default, [filters.DEFAULT_FILTERS], is
    defined in the module [fiction_scraper.filters]; a subclass replaces the
    list as a whole.  Either way it is a list the spider comes with. *)
Record Spider : Type := {
  name : string;
  domain : string;
  url : string;
  parse : string -> list action;
  filters : list callable
}.

(** ** The monad of a method body *)

Definition M (S A : Type) : Type := S -> S * outcome A.

Definition ret {S A} (a : A) : M S A := fun st => (st, Return a).

Definition bind {S A B} (c : M S A) (k : A -> M S B) : M S B :=
  fun st =>
    match c st with
    | (st', Return a) => k a st'
    | (st', Raises e) => (st', Raises e)
    end.

Definition raise {S A} (e : exn) : M S A := fun st => (st, Raises e).

(** Lift the outcome of a call that touches no state. *)
Definition lift {S A} (r : outcome A) : M S A := fun st => (st, r).

Declare Scope py_scope.
Delimit Scope py_scope with py.
Notation "x <- c ;; k" := (bind c (fun x => k))
  (at level 61, c at next level, right associativity) : py_scope.
Notation "c ;; k" := (bind c (fun _ => k))
  (at level 61, right associativity) : py_scope.
Open Scope py_scope.

Definition emit (ev : event) : M state unit :=
  fun st => ({| metadata := metadata st; trace := trace st ++ [ev] |}, Return tt).

Definition set_metadata (d : dict) : M state unit :=
  fun st => ({| metadata := d; trace := trace st |}, Return tt).

Definition get_metadata : M state dict :=
  fun st => (st, Return (metadata st)).

(** [self.debug], [self.info]: pass-through to the instance logger. *)
Definition debug (msg : string) (args : list string) : M state unit :=
  emit (Log DEBUG msg args).
Definition info (msg : string) (args : list string) : M state unit :=
  emit (Log INFO msg args).
Definition warning (msg : string) (args : list string) : M state unit :=
  emit (Log WARNING msg args).
Definition critical (msg : string) (args : list string) : M state unit :=
  emit (Log CRITICAL msg args).
Definition log (lvl : level) (msg : string) (args : list string) : M state unit :=
  emit (Log lvl msg args).

(** ** The methods of [Spider] *)

(** [Spider._filter_name]. *)
Definition _filter_name (type_ : callable) : string :=
  let '(module_, qualname) :=
    match own_name type_ with
    | Some own => own
    | None => type_name type_
    end in
  module_ ++ "." ++ qualname.

(** The loop of [Spider._generate_meadata_elements] over the items. *)
Fixpoint metadata_elements (its : list (string * string)) : list node :=
  match its with
  | [] => []
  | (name, content) :: rest =>
      (if String.eqb name "title"
       then E.TITLE content
       else E.META [("name", name); ("content", content)])
      :: metadata_elements rest
  end.

(** [Spider._generate_meadata_elements], on the metadata it reads. *)
Definition generate_meadata_elements (md : dict) : list node :=
  E.META [("charset", "UTF-8")] :: metadata_elements (items md).

(** The same as a method: it reads [self.metadata]. *)
Definition _generate_meadata_elements : M state (list node) :=
  md <- get_metadata ;;
  emit (Items md) ;;
  ret (generate_meadata_elements md).

(** [*self.parse(url)]: the generator is run to its end (or to a raise)
    and the yielded elements are collected, in order. *)
Fixpoint star (gen : list action) (acc : list node) : M state (list node) :=
  match gen with
  | [] => ret acc
  | a :: gen' =>
      emit (Gen a) ;;
      match a with
      | Yield n => star gen' (acc ++ [n])
      | SetItem k v =>
          md <- get_metadata ;; set_metadata (setitem k v md) ;; star gen' acc
      | PopItem k =>
          md <- get_metadata ;; set_metadata (popitem k md) ;; star gen' acc
      | Raise e => raise e
      end
  end.

(** [for f in self.filters: self.debug(...); f(body)].  The body is one
    object, mutated in place: the contents a filter leaves are the contents
    the next one finds. *)
Fixpoint apply_filters (fs : list callable) (body : node) : M state node :=
  match fs with
  | [] => ret body
  | f :: fs' =>
      debug "running filter %s" [_filter_name f] ;;
      emit (Call f body) ;;
      match call f body with
      | Return body' => apply_filters fs' body'
      | Raises e => raise e
      end
  end.

(** Lines 81 to 96 of [Spider.crawl]: up to [doc = E.HTML(head, body)]. *)
Definition crawl_document (self : Spider) (u : string) : M state node :=
  (* Clear metadata in case story is being re-crawled *)
  set_metadata [] ;;
  info "beginning parse..." [] ;;
  children <- star (parse self u) [] ;;
  let body := E.BODY children in
  info "applying filters..." [] ;;
  body <- apply_filters (filters self) body ;;
  elements <- _generate_meadata_elements ;;
  let head := E.HEAD elements in
  ret (E.HTML head body).

(** What [crawl] returns. *)
Inductive pyvalue (W : Type) : Type :=
| Str (s : string)
| WriteResult (r : W).
Arguments Str {W} s.
Arguments WriteResult {W} r.

Section Crawl.

(** The two serialization entry points of lxml, as the source calls them.
    - [tostring doc] is
      [tostring(doc, encoding='unicode', pretty_print=True,
                doctype='<!doctype html>')].
    - [etree_write doc output_file] is
      [doc.getroottree().write(output_file, encoding='UTF-8',
         method='html', pretty_print=True, doctype='<!doctype html>')]:
      the bytes that reached the output file, and what the call returned
      (a value of the library's type [W]) or raised. *)
Variable W : Type.
Variable tostring : node -> string.
Variable etree_write : node -> output -> string * outcome W.

(** Lines 98 to 110 of [Spider.crawl]. *)
Definition serialize (doc : node) (output_file : output) : M state (pyvalue W) :=
  if truthy output_file then
    info "writing document..." [] ;;
    let '(data, r) := etree_write doc output_file in
    emit (Wrote output_file data) ;;
    match r with
    | Return w => ret (WriteResult w)
    | Raises e => raise e
    end
  else
    info "tostring on document..." [] ;;
    emit (ToString doc) ;;
    ret (Str (tostring doc)).

(** [Spider.crawl]. *)
Definition crawl (self : Spider) (u : string) (output_file : output)
: M state (pyvalue W) :=
  doc <- crawl_document self u ;;
  serialize doc output_file.

End Crawl.

(** ** [Spider.fetch] *)

(** A [requests.Response]: [r_url] is [r.url], the URL the response finally
    came from (a GET follows redirects unless told otherwise), and
    [r_content] is [r.content]. *)
Record response : Type := {
  r_url : string;
  r_content : string
}.

(** An lxml document: its root element and the [base_url] it was parsed
    with. *)
Record document : Type := {
  root : node;
  base_url : option string
}.

Section Fetch.

(** The collaborators of [fetch].
    - [net] is everything behind [self._session]: cookies, the network.
    - [session_get u] is [self._session.get(u)].
    - [document_fromstring html base] is
      [document_fromstring(html, base_url=base)].
    - [make_links_absolute doc] is [doc.make_links_absolute()]: it changes
      [doc] in place, and raises when [doc] has no [base_url]. *)
Variable net : Type.
Variable session_get : string -> M net response.
Variable document_fromstring : string -> option string -> outcome document.
Variable make_links_absolute : document -> outcome document.

(** [Spider.fetch]. *)
Definition fetch (u : string) : M net document :=
  r <- session_get u ;;
  doc <- lift (document_fromstring (r_content r) (Some (r_url r))) ;;
  doc <- lift (make_links_absolute doc) ;;
  ret doc.

End Fetch.

(** ** What a generator and a filter chain amount to

    The methods above thread the state; the functions below say, as plain
    functions, what a given generator or chain does.  [star_spec],
    [apply_filters_spec] and [crawl_spec] connect the two. *)

(** The steps of a generator that are run: up to its first [Raise]. *)
Fixpoint executed (gen : list action) : list action :=
  match gen with
  | [] => []
  | Raise e :: _ => [Raise e]
  | a :: gen' => a :: executed gen'
  end.

(** The exception a generator ends with, if it ends with one. *)
Fixpoint raised (gen : list action) : option exn :=
  match gen with
  | [] => None
  | Raise e :: _ => Some e
  | _ :: gen' => raised gen'
  end.

(** The elements a generator yields before it stops. *)
Fixpoint yielded (gen : list action) : list node :=
  match gen with
  | [] => []
  | Yield n :: gen' => n :: yielded gen'
  | Raise _ :: _ => []
  | _ :: gen' => yielded gen'
  end.

(** The metadata a generator leaves, from the metadata it starts with. *)
Fixpoint stored (gen : list action) (md : dict) : dict :=
  match gen with
  | [] => md
  | SetItem k v :: gen' => stored gen' (setitem k v md)
  | PopItem k :: gen' => stored gen' (popitem k md)
  | Raise _ :: _ => md
  | Yield _ :: gen' => stored gen' md
  end.

(** A generator that never assigns to or deletes from the metadata. *)
Definition is_write (a : action) : bool :=
  match a with
  | SetItem _ _ | PopItem _ => true
  | _ => false
  end.

Definition writes_no_metadata (gen : list action) : bool :=
  forallb (fun a => negb (is_write a)) gen.

(** The body a filter leaves behind: what it returns, or, when it raises,
    what it was given. *)
Definition after (f : callable) (body : node) : node :=
  match call f body with
  | Return body' => body'
  | Raises _ => body
  end.

(** The cumulative effect of the filters [fs] on [body]. *)
Definition cumulative (fs : list callable) (body : node) : node :=
  fold_left (fun b f => after f b) fs body.

(** The outcome of a chain: the body after the last filter, or the first
    exception. *)
Fixpoint chain_result (fs : list callable) (body : node) : outcome node :=
  match fs with
  | [] => Return body
  | f :: fs' =>
      match call f body with
      | Return body' => chain_result fs' body'
      | Raises e => Raises e
      end
  end.

(** What a chain leaves in the trace. *)
Fixpoint chain_events (fs : list callable) (body : node) : list event :=
  match fs with
  | [] => []
  | f :: fs' =>
      Log DEBUG "running filter %s" [_filter_name f] :: Call f body ::
      match call f body with
      | Return body' => chain_events fs' body'
      | Raises _ => []
      end
  end.

(** Projections of a trace. *)
Definition is_gen (ev : event) : bool :=
  match ev with Gen _ => true | _ => false end.

Definition is_call (ev : event) : bool :=
  match ev with Call _ _ => true | _ => false end.

Definition is_items (ev : event) : bool :=
  match ev with Items _ => true | _ => false end.

Definition is_output (ev : event) : bool :=
  match ev with ToString _ | Wrote _ _ => true | _ => false end.

(** An event that is neither a step of the generator, nor a read of the
    metadata, nor a serialization. *)
Definition quiet (ev : event) : bool :=
  negb (is_gen ev || is_items ev || is_output ev).

Fixpoint calls_of (t : list event) : list (callable * node) :=
  match t with
  | [] => []
  | Call f body :: t' => (f, body) :: calls_of t'
  | _ :: t' => calls_of t'
  end.

Fixpoint writes_of (t : list event) : list (output * string) :=
  match t with
  | [] => []
  | Wrote o data :: t' => (o, data) :: writes_of t'
  | _ :: t' => writes_of t'
  end.

Definition extend (st : state) (md : dict) (evs : list event) : state :=
  {| metadata := md; trace := trace st ++ evs |}.

(** The document a crawl assembles, or the exception that stops it. *)
Definition document_of (self : Spider) (u : string) : outcome node :=
  let gen := parse self u in
  match raised gen with
  | Some e => Raises e
  | None =>
      match chain_result (filters self) (E.BODY (yielded gen)) with
      | Raises e => Raises e
      | Return body =>
          Return (E.HTML (E.HEAD (generate_meadata_elements (stored gen [])))
                         body)
      end
  end.

(** What assembling the document leaves in the trace, after the first
    log record and the steps of the generator. *)
Definition after_parse_events (self : Spider) (u : string) : list event :=
  let gen := parse self u in
  match raised gen with
  | Some _ => []
  | None =>
      Log INFO "applying filters..." [] ::
      chain_events (filters self) (E.BODY (yielded gen)) ++
      match chain_result (filters self) (E.BODY (yielded gen)) with
      | Raises _ => []
      | Return _ => [Items (stored gen [])]
      end
  end.

Definition document_events (self : Spider) (u : string) : list event :=
  Log INFO "beginning parse..." [] :: map Gen (executed (parse self u)) ++
  after_parse_events self u.

(** The stages of a crawl, as the specification names them. *)
Inductive stage : Type :=
| Parsing | Filtering | ProjectingMetadata | Assembling | Serializing.


Definition is_title (n : node) : bool := String.eqb (tag_of n) "title".

(** The charset declaration every head starts with. *)
Definition charset_element : node := E.META [("charset", "UTF-8")].

(** The head element that stands for one metadata entry. *)
Definition projects (entry : string * string) (el : node) : Prop :=
  (fst entry = "title" /\ el = E.TITLE (snd entry)) \/
  (fst entry <> "title" /\
   el = E.META [("name", fst entry); ("content", snd entry)]).

Section CrawlSpec.

Variable W : Type.
Variable tostring : node -> string.
Variable etree_write : node -> output -> string * outcome W.

(** What [serialize] returns or raises. *)
Definition serialize_result (doc : node) (output_file : output)
  : outcome (pyvalue W) :=
  if truthy output_file then
    match snd (etree_write doc output_file) with
    | Return w => Return (WriteResult w)
    | Raises e => Raises e
    end
  else Return (Str (tostring doc)).

(** What [serialize] leaves in the trace. *)
Definition serialize_events (doc : node) (output_file : output)
  : list event :=
  if truthy output_file then
    [Log INFO "writing document..." [];
     Wrote output_file (fst (etree_write doc output_file))]
  else
    [Log INFO "tostring on document..." []; ToString doc].

(** What [crawl] returns or raises. *)
Definition crawl_result (self : Spider) (u : string) (o : output)
  : outcome (pyvalue W) :=
  match document_of self u with
  | Return doc => serialize_result doc o
  | Raises e => Raises e
  end.

(** What [crawl] leaves in the trace after the steps of the generator. *)
Definition crawl_rest (self : Spider) (u : string) (o : output)
  : list event :=
  after_parse_events self u ++
  match document_of self u with
  | Return doc => serialize_events doc o
  | Raises _ => []
  end.

Definition crawl_events (self : Spider) (u : string) (o : output)
  : list event :=
  Log INFO "beginning parse..." [] :: map Gen (executed (parse self u)) ++
  crawl_rest self u o.

End CrawlSpec.

(** ** More of what a crawl leaves behind *)

(** [d.get(k)]. *)
Fixpoint getitem (k : string) (d : dict) : option string :=
  match d with
  | [] => None
  | (k', v) :: d' => if String.eqb k' k then Some v else getitem k d'
  end.

(** The value the steps of a generator leave under the key [k], from the
    value [before] them: that of the last assignment to [k] that ran, unless
    [k] was dropped after it. *)
Fixpoint written (k : string) (gen : list action) (before : option string)
  : option string :=
  match gen with
  | [] => before
  | SetItem k' v :: gen' =>
      written k gen' (if String.eqb k' k then Some v else before)
  | PopItem k' :: gen' =>
      written k gen' (if String.eqb k' k then None else before)
  | Raise _ :: _ => before
  | Yield _ :: gen' => written k gen' before
  end.

(** The records the logger of the instance received. *)
Fixpoint logs_of (t : list event) : list (level * string * list string) :=
  match t with
  | [] => []
  | Log lvl msg args :: t' => (lvl, msg, args) :: logs_of t'
  | _ :: t' => logs_of t'
  end.

(** The record [crawl] logs before it calls the filter [f]. *)
Definition running (f : callable) : level * string * list string :=
  (DEBUG, "running filter %s", [_filter_name f]).

(** A filter that leaves the tag of the body as it is. *)
Definition keeps_tag (f : callable) : Prop :=
  forall body body', call f body = Return body' -> tag_of body' = tag_of body.

(** ** The two serializations of [crawl], call by call *)

(** The keyword arguments of a serialization. *)
Record serialization : Type := {
  encoding : string;
  method : string;
  pretty_print : bool;
  doctype : string
}.

(** Line 107: [tostring(doc, encoding='unicode', pretty_print=True,
    doctype='<!doctype html>')]; [method] is left to its default, html. *)
Definition tostring_arguments : serialization := {|
  encoding := "unicode";
  method := "html";
  pretty_print := true;
  doctype := "<!doctype html>"
|}.

(** Line 100: [write(output_file, encoding='UTF-8', method='html',
    pretty_print=True, doctype='<!doctype html>')]. *)
Definition write_arguments : serialization := {|
  encoding := "UTF-8";
  method := "html";
  pretty_print := true;
  doctype := "<!doctype html>"
|}.

Definition quote : string := String "034"%char EmptyString.

(** The fixed part of the tag that [lxml.html.tostring] removes. *)
Definition meta_content_type : string :=
  "<meta http-equiv=" ++ quote ++ "Content-Type" ++ quote.

(** [s] holds a [>]. *)
Fixpoint closes (s : string) : bool :=
  match s with
  | EmptyString => false
  | String c s' => Ascii.eqb c ">" || closes s'
  end.

(** [pat] occurs in [s]. *)
Fixpoint occurs (pat s : string) : bool :=
  String.prefix pat s ||
  match s with
  | EmptyString => false
  | String _ s' => occurs pat s'
  end.

(** The substitution [lxml.html] applies to what it serializes: every match
    of [<meta http-equiv=(quote)Content-Type(quote)[^>]*>], from left to
    right, is replaced by nothing.  [inside] says that a match has begun and
    its closing [>] is still to come. *)
Fixpoint sub_meta_content_type (inside : bool) (s : string) : string :=
  match s with
  | EmptyString => EmptyString
  | String c s' =>
      if inside then
        sub_meta_content_type (negb (Ascii.eqb c ">")) s'
      else if String.prefix meta_content_type s && closes s then
        sub_meta_content_type true s'
      else String c (sub_meta_content_type false s')
  end.

Definition remove_meta_content_type (html : string) : string :=
  sub_meta_content_type false html.

Section HtmlSerializers.

(** [etree_tostring doc kw] is [etree.tostring(doc, **kw)], the serializer
    [lxml.html.tostring] is defined with; [tree_write doc output_file kw] is
    [doc.getroottree().write(output_file, **kw)]. *)
Variable W : Type.
Variable etree_tostring : node -> serialization -> string.
Variable tree_write : node -> output -> serialization -> string * outcome W.

(** [lxml.html.tostring(doc, **kw)], with [include_meta_content_type] left
    to its default, false: for the method html, what [etree.tostring]
    renders, less every [meta] tag that declares a content type. *)
Definition html_tostring (doc : node) (kw : serialization) : string :=
  let html := etree_tostring doc kw in
  if String.eqb (method kw) "html"
  then remove_meta_content_type html
  else html.

(** [crawl], with the two calls of lines 100 and 107 spelled out. *)
Definition crawl_html (self : Spider) (u : string) (output_file : output)
  : M state (pyvalue W) :=
  crawl W (fun doc => html_tostring doc tostring_arguments)
          (fun doc o => tree_write doc o write_arguments)
          self u output_file.

End HtmlSerializers.

(** ** [crawl] when the calls into lxml may raise

    The same method, line by line, with every call into lxml taken as a
    call that returns or raises: the builders of [E], [tostring] and
    [write]. *)

Module Raising.

Record library (W : Type) : Type := {
  BODY : list node -> outcome node;
  META : list (string * string) -> outcome node;
  TITLE : string -> outcome node;
  HEAD : list node -> outcome node;
  HTML : node -> node -> outcome node;
  tostring : node -> outcome string;
  write : node -> output -> string * outcome W
}.
Arguments BODY {W} _ _.
Arguments META {W} _ _.
Arguments TITLE {W} _ _.
Arguments HEAD {W} _ _.
Arguments HTML {W} _ _ _.
Arguments tostring {W} _ _.
Arguments write {W} _ _ _.

Section Methods.

Variable W : Type.
Variable L : library W.

(** The loop of [Spider._generate_meadata_elements]: it stops at the first
    builder that raises. *)
Fixpoint metadata_elements (its : list (string * string))
  : outcome (list node) :=
  match its with
  | [] => Return []
  | (name, content) :: rest =>
      match (if String.eqb name "title"
             then TITLE L content
             else META L [("name", name); ("content", content)]) with
      | Raises e => Raises e
      | Return el =>
          match metadata_elements rest with
          | Raises e => Raises e
          | Return els => Return (el :: els)
          end
      end
  end.

(** [Spider._generate_meadata_elements], consumed by [E.HEAD( * ...)]: the
    charset element is built before [self.metadata] is read. *)
Definition _generate_meadata_elements : M state (list node) :=
  charset <- lift (META L [("charset", "UTF-8")]) ;;
  md <- get_metadata ;;
  emit (Items md) ;;
  elements <- lift (metadata_elements (items md)) ;;
  ret (charset :: elements).

(** Lines 81 to 96 of [Spider.crawl]. *)
Definition crawl_document (self : Spider) (u : string) : M state node :=
  set_metadata [] ;;
  info "beginning parse..." [] ;;
  children <- star (parse self u) [] ;;
  body <- lift (BODY L children) ;;
  info "applying filters..." [] ;;
  body <- apply_filters (filters self) body ;;
  elements <- _generate_meadata_elements ;;
  head <- lift (HEAD L elements) ;;
  lift (HTML L head body).

(** Lines 98 to 110 of [Spider.crawl]. *)
Definition serialize (doc : node) (output_file : output)
  : M state (pyvalue W) :=
  if truthy output_file then
    info "writing document..." [] ;;
    let '(data, r) := write L doc output_file in
    emit (Wrote output_file data) ;;
    match r with
    | Return w => ret (WriteResult w)
    | Raises e => raise e
    end
  else
    info "tostring on document..." [] ;;
    emit (ToString doc) ;;
    s <- lift (tostring L doc) ;;
    ret (Str s).

(** [Spider.crawl]. *)
Definition crawl (self : Spider) (u : string) (output_file : output)
  : M state (pyvalue W) :=
  doc <- crawl_document self u ;;
  serialize doc output_file.

(** What each stage of a crawl comes to, given the stages before it
    returned.  Line 85: the generator of [parse], then [E.BODY]. *)
Definition parsed (self : Spider) (u : string) : outcome node :=
  match raised (parse self u) with
  | Some e => Raises e
  | None => BODY L (yielded (parse self u))
  end.

(** Line 94: the elements of the head, then [E.HEAD]. *)
Definition projected (self : Spider) (u : string) : outcome node :=
  match META L [("charset", "UTF-8")] with
  | Raises e => Raises e
  | Return charset =>
      match metadata_elements (items (stored (parse self u) [])) with
      | Raises e => Raises e
      | Return elements => HEAD L (charset :: elements)
      end
  end.

(** Lines 98 to 110. *)
Definition serialized (doc : node) (o : output) : outcome (pyvalue W) :=
  if truthy o then
    match snd (write L doc o) with
    | Return w => Return (WriteResult w)
    | Raises e => Raises e
    end
  else
    match tostring L doc with
    | Return s => Return (Str s)
    | Raises e => Raises e
    end.

(** What a crawl returns or raises, by the outcome of its stages in the
    order of the lines of [crawl]. *)
Definition staged_result (self : Spider) (u : string) (o : output)
  : outcome (pyvalue W) :=
  match parsed self u with
  | Raises e => Raises e
  | Return body0 =>
      match chain_result (filters self) body0 with
      | Raises e => Raises e
      | Return body =>
          match projected self u with
          | Raises e => Raises e
          | Return head =>
              match HTML L head body with
              | Raises e => Raises e
              | Return doc => serialized doc o
              end
          end
      end
  end.

(** The stage at which a crawl fails and the exception that stage raises;
    [None] when every stage returns. *)
Definition failing_stage (self : Spider) (u : string) (o : output)
  : option (stage * exn) :=
  match parsed self u with
  | Raises e => Some (Parsing, e)
  | Return body0 =>
      match chain_result (filters self) body0 with
      | Raises e => Some (Filtering, e)
      | Return body =>
          match projected self u with
          | Raises e => Some (ProjectingMetadata, e)
          | Return head =>
              match HTML L head body with
              | Raises e => Some (Assembling, e)
              | Return doc =>
                  match serialized doc o with
                  | Raises e => Some (Serializing, e)
                  | Return _ => None
                  end
              end
          end
      end
  end.

End Methods.

(** The library none of whose builders raises, and whose [tostring] always
    returns: the one the methods of the first part are written with. *)
Definition total (W : Type) (tostring : node -> string)
  (etree_write : node -> output -> string * outcome W) : library W := {|
  BODY := fun children => Return (E.BODY children);
  META := fun kwargs => Return (E.META kwargs);
  TITLE := fun content => Return (E.TITLE content);
  HEAD := fun children => Return (E.HEAD children);
  HTML := fun head body => Return (E.HTML head body);
  tostring := fun doc => Return (tostring doc);
  write := etree_write
|}.

End Raising.

(** ** Concrete spiders and stand-ins for the libraries

    Inputs to run the model on.  The stand-ins give the library functions
    some definite behaviour; no theorem below depends on them, only the
    concrete runs do. *)

Module Example.

Definition attr_text (kv : string * string) : string :=
  " " ++ fst kv ++ "='" ++ snd kv ++ "'".

Fixpoint render (n : node) : string :=
  match n with
  | Element t a x c =>
      "<" ++ t ++ String.concat EmptyString (map attr_text a) ++ ">" ++
      match x with Some s => s | None => EmptyString end ++
      String.concat EmptyString (map render c) ++
      "</" ++ t ++ ">"
  end.

Definition tostring (doc : node) : string := "<!doctype html>" ++ render doc.

(** Writing renders the same text; a file below [/readonly/] cannot be
    opened.  The call returns [None]. *)
Definition etree_write (doc : node) (o : output) : string * outcome unit :=
  match o with
  | Filename path =>
      if String.prefix "/readonly/" path
      then (EmptyString, Raises (Exception "OSError" "Read-only file system"))
      else (tostring doc, Return tt)
  | _ => (tostring doc, Return tt)
  end.

Definition p (s : string) : node := Element "p" [] (Some s) [].

(** A filter that leaves its mark on the body, after the marks already
    there. *)
Definition mark (m : string) : callable := {|
  own_name := Some ("fiction_scraper.filters", m);
  type_name := ("builtins", "function");
  call := fun body =>
    match body with
    | Element t a x c => Return (Element t (a ++ [(String.append "data-" m, "seen")]) x c)
    end
|}.

Definition boom : exn := Exception "ValueError" "unexpected markup".

(** A filter that raises: an instance of a class with [__call__]. *)
Definition broken : callable := {|
  own_name := None;
  type_name := ("fiction_scraper.filters", "Broken");
  call := fun _ => Raises boom
|}.

Definition story_url : string := "https://example.com/story/1".
Definition other_url : string := "https://example.com/story/2".

(** A spider whose first story has a title and an author, and whose other
    stories have none. *)
Definition story : Spider := {|
  name := "Story";
  domain := "example.com";
  url := story_url;
  parse := fun u =>
    if String.eqb u story_url
    then [SetItem "title" "A Tale"; Yield (p "Once"); SetItem "author" "Anon";
          Yield (p "upon a time")]
    else [Yield (p "Untitled")];
  filters := [mark "f1"; mark "f2"; mark "f3"]
|}.

(** The same, with a filter that raises in the middle of the chain. *)
Definition fragile : Spider := {|
  name := "Fragile";
  domain := "example.com";
  url := story_url;
  parse := parse story;
  filters := [mark "f1"; broken; mark "f3"]
|}.

(** A spider whose [parse] raises, and one whose only filter raises the
    same exception. *)
Definition offline : Spider := {|
  name := "Offline";
  domain := "example.com";
  url := story_url;
  parse := fun _ => [Raise boom];
  filters := []
|}.

Definition picky : Spider := {|
  name := "Picky";
  domain := "example.com";
  url := story_url;
  parse := fun _ => [Yield (p "Once")];
  filters := [broken]
|}.

Definition fresh : state := {| metadata := []; trace := [] |}.

(** What the crawl of the first story assembles. *)
Definition story_metadata : dict := [("title", "A Tale"); ("author", "Anon")].

Definition story_body : node :=
  Element "body" [("data-f1", "seen"); ("data-f2", "seen"); ("data-f3", "seen")]
          None [p "Once"; p "upon a time"].

Definition story_doc : node :=
  E.HTML (E.HEAD [E.META [("charset", "UTF-8")]; E.TITLE "A Tale";
                  E.META [("name", "author"); ("content", "Anon")]])
         story_body.

(** A file-like object whose truth value is [False]: a buffer class with
    [write] and a [__len__] that counts what was written, still empty. *)
Definition empty_buffer : output := FileObject false 3.

(** Stand-ins for [requests] and [lxml.html] in [fetch]: every request is
    redirected to the first story, whose page has one relative link. *)
Definition session_get (u : string) : M unit response :=
  fun w => (w, Return {| r_url := story_url;
                         r_content := "<a href='/story/2'>next</a>" |}).

Definition document_fromstring (html : string) (base : option string)
  : outcome document :=
  Return {| root := Element "a" [("href", "/story/2")] (Some "next") [];
            base_url := base |}.

Definition links (doc : document) : list string :=
  map snd (attrib_of (root doc)).

Definition absolute (s : string) : bool :=
  String.prefix "https://" s || String.prefix "http://" s.

Fixpoint host (s : string) : string :=
  match s with
  | EmptyString => EmptyString
  | String c s' => if Ascii.eqb c "/" then EmptyString else String c (host s')
  end.

Definition origin (base : string) : string :=
  if String.prefix "https://" base
  then "https://" ++ host (substring 8 (String.length base) base)
  else "http://" ++ host (substring 7 (String.length base) base).

Definition urljoin (base l : string) : string :=
  if absolute l then l else origin base ++ l.

Definition make_links_absolute (doc : document) : outcome document :=
  match base_url doc with
  | None =>
      Raises (Exception "TypeError"
                "No base_url given, and the document has no base_url")
  | Some b =>
      match root doc with
      | Element t a x c =>
          Return {| root :=
                      Element t (map (fun kv => (fst kv, urljoin b (snd kv))) a)
                              x c;
                    base_url := Some b |}
      end
  end.

(** More inputs: a spider whose [parse] raises after its first writes, a
    filter that turns the body into a [div], and a session that cannot reach
    the network. *)
Definition interrupted : Spider := {|
  name := "Interrupted";
  domain := "example.com";
  url := story_url;
  parse := fun _ =>
    [SetItem "title" "Draft"; Yield (p "Once"); SetItem "title" "A Tale";
     Raise boom; SetItem "author" "Anon"; Yield (p "never")];
  filters := [mark "f1"]
|}.

Definition retitled : Spider := {|
  name := "Retitled";
  domain := "example.com";
  url := story_url;
  parse := fun _ =>
    [SetItem "title" "Draft"; SetItem "author" "Anon"; Yield (p "Once");
     SetItem "title" "A Tale"; PopItem "author"];
  filters := []
|}.

(** A serializer that writes attributes the way lxml does, between double
    quotes, and starts with the doctype it is given; it renders the same
    text for every encoding, and writing puts that text into the file. *)
Definition attr_html (kv : string * string) : string :=
  " " ++ fst kv ++ "=" ++ quote ++ snd kv ++ quote.

Fixpoint render_html (n : node) : string :=
  match n with
  | Element t a x c =>
      "<" ++ t ++ String.concat EmptyString (map attr_html a) ++ ">" ++
      match x with Some s => s | None => EmptyString end ++
      String.concat EmptyString (map render_html c) ++
      (if String.eqb t "meta" then EmptyString else "</" ++ t ++ ">")
  end.

Definition etree_tostring (doc : node) (kw : serialization) : string :=
  doctype kw ++ render_html doc.

Definition tree_write (doc : node) (o : output) (kw : serialization)
  : string * outcome unit :=
  (etree_tostring doc kw, Return tt).

(** A spider whose [parse] yields, with the text of the page, the [meta]
    element the page declares its content type with. *)
Definition content_type : node :=
  Element "meta"
    [("http-equiv", "Content-Type"); ("content", "text/html; charset=utf-8")]
    None [].

Definition embedded : Spider := {|
  name := "Embedded";
  domain := "example.com";
  url := story_url;
  parse := fun _ => [Yield content_type; Yield (p "Once")];
  filters := []
|}.

(** A library whose [E.TITLE] refuses a title with a NUL byte, as lxml
    refuses any string that is not XML compatible. *)
Definition not_xml : exn :=
  Exception "ValueError" "All strings must be XML compatible".

Definition strict : Raising.library unit := {|
  Raising.BODY := fun children => Return (E.BODY children);
  Raising.META := fun kwargs => Return (E.META kwargs);
  Raising.TITLE := fun content =>
    if occurs (String "000"%char EmptyString) content
    then Raises not_xml
    else Return (E.TITLE content);
  Raising.HEAD := fun children => Return (E.HEAD children);
  Raising.HTML := fun head body => Return (E.HTML head body);
  Raising.tostring := fun doc => Return (tostring doc);
  Raising.write := etree_write
|}.

Definition binary_title : Spider := {|
  name := "BinaryTitle";
  domain := "example.com";
  url := story_url;
  parse := fun _ =>
    [SetItem "title" (String "000"%char "A Tale"); Yield (p "Once")];
  filters := [mark "f1"]
|}.

Definition unreachable : exn := Exception "ConnectionError" "Name or service not known".

Definition failing_get (u : string) : M unit response :=
  fun w => (w, Raises unreachable).

End Example.


(** ** The methods, step by step *)

Lemma extend_extend st md evs md' evs' :
  extend (extend st md evs) md' evs' = extend st md' (evs ++ evs').
Proof. unfold extend; simpl. now rewrite <- app_assoc. Qed.

Lemma star_spec gen : forall acc st,
  star gen acc st =
  (extend st (stored gen (metadata st)) (map Gen (executed gen)),
   match raised gen with
   | Some e => Raises e
   | None => Return (acc ++ yielded gen)
   end).
Proof.
  induction gen as [|a gen IH]; intros acc st.
  - simpl. unfold ret, extend. rewrite !app_nil_r. now destruct st.
  - destruct a as [n|k v|k|e]; simpl; unfold bind, emit, get_metadata,
      set_metadata, raise; simpl; try reflexivity;
      rewrite IH; unfold extend; simpl; rewrite <- !app_assoc; reflexivity.
Qed.

Lemma apply_filters_spec fs : forall body st,
  apply_filters fs body st =
  (extend st (metadata st) (chain_events fs body), chain_result fs body).
Proof.
  induction fs as [|f fs IH]; intros body st.
  - simpl. unfold ret, extend. rewrite app_nil_r. now destruct st.
  - simpl. unfold bind, debug, emit, raise; simpl.
    destruct (call f body) as [body'|e].
    + rewrite IH. unfold extend; simpl. rewrite <- !app_assoc. reflexivity.
    + unfold extend; simpl. rewrite <- !app_assoc. reflexivity.
Qed.

Lemma crawl_document_spec self u st :
  crawl_document self u st =
  (extend st (stored (parse self u) []) (document_events self u),
   document_of self u).
Proof.
  unfold crawl_document, document_of, document_events, after_parse_events.
  unfold bind at 1. unfold set_metadata at 1.
  unfold bind at 1. unfold info at 1, emit at 1. simpl metadata. simpl trace.
  unfold bind at 1. rewrite star_spec. simpl metadata. simpl app at 1.
  destruct (raised (parse self u)) as [e|].
  - unfold extend; simpl. rewrite app_nil_r, <- app_assoc. reflexivity.
  - unfold bind at 1. unfold info at 1, emit at 1.
    unfold bind at 1. rewrite apply_filters_spec.
    destruct (chain_result (filters self) (E.BODY (yielded (parse self u))))
      as [body|e].
    + unfold _generate_meadata_elements, bind, get_metadata, emit, ret, extend.
      simpl. rewrite <- ?app_assoc. simpl. rewrite <- ?app_assoc. reflexivity.
    + unfold extend; simpl. rewrite app_nil_r, <- ?app_assoc. simpl.
      rewrite <- ?app_assoc. reflexivity.
Qed.

Section CrawlFacts.

Variable W : Type.
Variable tostring : node -> string.
Variable etree_write : node -> output -> string * outcome W.

Lemma serialize_spec doc o st :
  serialize W tostring etree_write doc o st =
  (extend st (metadata st) (serialize_events W etree_write doc o),
   serialize_result W tostring etree_write doc o).
Proof.
  unfold serialize, serialize_events, serialize_result.
  destruct (truthy o).
  - unfold bind, info, emit, ret, raise, extend; simpl.
    destruct (etree_write doc o) as [data [w|e]]; simpl;
      rewrite <- app_assoc; reflexivity.
  - unfold bind, info, emit, ret, extend; simpl.
    rewrite <- app_assoc; reflexivity.
Qed.

Lemma crawl_spec self u o st :
  crawl W tostring etree_write self u o st =
  (extend st (stored (parse self u) []) (crawl_events W etree_write self u o),
   crawl_result W tostring etree_write self u o).
Proof.
  unfold crawl, crawl_result, crawl_events, crawl_rest, bind.
  rewrite crawl_document_spec. unfold document_events.
  destruct (document_of self u) as [doc|e].
  - rewrite serialize_spec. simpl metadata. rewrite extend_extend.
    simpl. now rewrite <- app_assoc.
  - now rewrite app_nil_r.
Qed.

End CrawlFacts.

(** ** Generators *)

Lemma executed_all gen : raised gen = None -> executed gen = gen.
Proof.
  induction gen as [|a gen IH]; simpl; [reflexivity|].
  destruct a; intros H; try discriminate; now rewrite IH.
Qed.

Lemma stored_no_write gen : forall md,
  writes_no_metadata gen = true -> stored gen md = md.
Proof.
  induction gen as [|a gen IH]; intros md H; simpl in *; [reflexivity|].
  apply andb_prop in H as [Ha Hg].
  destruct a; simpl in Ha; try discriminate; auto.
Qed.

(** ** The metadata dict keeps its keys distinct *)

Lemma keys_setitem_In k v d x :
  In x (keys (setitem k v d)) -> x = k \/ In x (keys d).
Proof.
  induction d as [|[k' v'] d IH]; simpl.
  - intros [H|[]]; auto.
  - destruct (String.eqb_spec k' k); simpl; intros [H|H]; auto.
    destruct (IH H); auto.
Qed.

Lemma NoDup_setitem k v d : NoDup (keys d) -> NoDup (keys (setitem k v d)).
Proof.
  induction d as [|[k' v'] d IH]; simpl; intros H.
  - constructor; [intros []|constructor].
  - inversion_clear H as [|? ? Hnin Hnd].
    destruct (String.eqb_spec k' k) as [->|Hne]; simpl.
    + now constructor.
    + constructor; [|now apply IH].
      intros Hin. apply keys_setitem_In in Hin as [->|Hin]; auto.
Qed.

Lemma keys_popitem_In k d x : In x (keys (popitem k d)) -> In x (keys d).
Proof.
  induction d as [|[k' v'] d IH]; simpl; [auto|].
  destruct (String.eqb_spec k' k); simpl; intros H; auto.
  destruct H; auto.
Qed.

Lemma NoDup_popitem k d : NoDup (keys d) -> NoDup (keys (popitem k d)).
Proof.
  induction d as [|[k' v'] d IH]; simpl; intros H; [constructor|].
  inversion_clear H as [|? ? Hnin Hnd].
  destruct (String.eqb_spec k' k); simpl; [assumption|].
  constructor; [|now apply IH].
  intros Hin. now apply keys_popitem_In in Hin.
Qed.

Lemma NoDup_stored gen : forall md,
  NoDup (keys md) -> NoDup (keys (stored gen md)).
Proof.
  induction gen as [|a gen IH]; intros md H; simpl; [assumption|].
  destruct a; auto using NoDup_setitem, NoDup_popitem.
Qed.

(** ** The metadata projection *)


Lemma metadata_elements_projects its :
  Forall2 projects its (metadata_elements its).
Proof.
  induction its as [|[k v] its IH]; simpl; constructor; [|assumption].
  unfold projects; simpl.
  destruct (String.eqb_spec k "title"); [left|right]; auto.
Qed.


Lemma metadata_elements_titles its :
  length (filter is_title (metadata_elements its)) =
  length (filter (fun k => String.eqb k "title") (keys its)).
Proof.
  induction its as [|[k v] its IH]; simpl; [reflexivity|].
  destruct (String.eqb k "title"); simpl; now rewrite IH.
Qed.

Lemma NoDup_count_le_1 (x : string) ks :
  NoDup ks -> length (filter (fun k => String.eqb k x) ks) <= 1.
Proof.
  induction ks as [|k ks IH]; simpl; intros H; [lia|].
  inversion_clear H as [|? ? Hnin Hnd].
  destruct (String.eqb_spec k x) as [->|Hne]; simpl; [|auto].
  assert (Hnone : filter (fun k => String.eqb k x) ks = []).
  { clear IH Hnd. induction ks as [|k ks IH]; simpl; [reflexivity|].
    destruct (String.eqb_spec k x) as [->|Hne].
    - exfalso. apply Hnin. now left.
    - apply IH. intros Hin. apply Hnin. now right. }
  rewrite Hnone. simpl. lia.
Qed.


(** C10.  The head of every document a crawl assembles has at most one
    title element: the metadata is a dict, built from the empty dict by the
    writes of [parse], so its keys are distinct and ["title"] occurs at
    most once among them. *)
Theorem head_has_at_most_one_title self u st st' doc :
  crawl_document self u st = (st', Return doc) ->
  NoDup (keys (metadata st')) /\
  exists body,
    doc = E.HTML (E.HEAD (generate_meadata_elements (metadata st'))) body /\
    length (filter is_title (generate_meadata_elements (metadata st'))) <= 1.
Proof.
  rewrite crawl_document_spec. intros H.
  injection H as Hst Hdoc. subst st'. simpl.
  assert (Hnd : NoDup (keys (stored (parse self u) []))).
  { apply NoDup_stored. constructor. }
  split; [assumption|].
  unfold document_of in Hdoc.
  destruct (raised (parse self u)); [discriminate|].
  destruct (chain_result _ _) as [body|]; [|discriminate].
  injection Hdoc as <-. exists body. split; [reflexivity|].
  unfold generate_meadata_elements. simpl.
  rewrite metadata_elements_titles. now apply NoDup_count_le_1.
Qed.

(** ** Filter chains *)

Lemma calls_of_app t1 t2 : calls_of (t1 ++ t2) = calls_of t1 ++ calls_of t2.
Proof.
  induction t1 as [|ev t1 IH]; simpl; [reflexivity|].
  destruct ev; simpl; now rewrite ?IH.
Qed.

Lemma calls_of_gen gen : calls_of (map Gen gen) = [].
Proof. induction gen; simpl; auto. Qed.

Lemma writes_of_app t1 t2 :
  writes_of (t1 ++ t2) = writes_of t1 ++ writes_of t2.
Proof.
  induction t1 as [|ev t1 IH]; simpl; [reflexivity|].
  destruct ev; simpl; now rewrite ?IH.
Qed.

Lemma writes_of_gen gen : writes_of (map Gen gen) = [].
Proof. induction gen; simpl; auto. Qed.

Lemma writes_of_chain fs : forall body, writes_of (chain_events fs body) = [].
Proof.
  induction fs as [|f fs IH]; intros body; simpl; [reflexivity|].
  destruct (call f body); auto.
Qed.

Lemma chain_app pre fs : forall body body',
  chain_result pre body = Return body' ->
  chain_result (pre ++ fs) body = chain_result fs body' /\
  chain_events (pre ++ fs) body = chain_events pre body ++ chain_events fs body'.
Proof.
  induction pre as [|f pre IH]; intros body body' H; simpl in *.
  - injection H as <-. auto.
  - destruct (call f body) as [b1|]; [|discriminate].
    destruct (IH _ _ H) as [-> ->]. auto.
Qed.

Lemma cumulative_cons f fs body :
  cumulative (f :: fs) body = cumulative fs (after f body).
Proof. reflexivity. Qed.

Lemma after_return f body body' : call f body = Return body' -> after f body = body'.
Proof. unfold after. now intros ->. Qed.

Lemma chain_success fs : forall body body',
  chain_result fs body = Return body' ->
  body' = cumulative fs body /\
  map fst (calls_of (chain_events fs body)) = fs /\
  forall i f,
    nth_error fs i = Some f ->
    nth_error (calls_of (chain_events fs body)) i =
    Some (f, cumulative (firstn i fs) body).
Proof.
  induction fs as [|f fs IH]; intros body body' H.
  - simpl in H. injection H as <-. repeat split; auto.
    intros [|i] f; discriminate.
  - simpl in H. simpl chain_events.
    destruct (call f body) as [b1|] eqn:Ec; [|discriminate].
    destruct (IH _ _ H) as (Hb & Hm & Hn).
    rewrite cumulative_cons, (after_return _ _ _ Ec).
    split; [assumption|]. split; [simpl; now rewrite Hm|].
    intros [|i] g Hg; simpl in Hg; simpl calls_of; simpl nth_error.
    + now injection Hg as <-.
    + simpl firstn. rewrite cumulative_cons, (after_return _ _ _ Ec).
      now apply Hn.
Qed.

Lemma chain_events_quiet fs : forall body,
  forallb quiet (chain_events fs body) = true.
Proof.
  induction fs as [|f fs IH]; intros body; simpl; [reflexivity|].
  destruct (call f body); auto.
Qed.

Lemma after_parse_no_gen self u :
  forallb (fun ev => negb (is_gen ev)) (after_parse_events self u) = true.
Proof.
  unfold after_parse_events. destruct (raised _); [reflexivity|].
  simpl. rewrite forallb_app. apply andb_true_intro. split.
  - generalize (E.BODY (yielded (parse self u))).
    induction (filters self) as [|f fs IH]; intros b; simpl; [reflexivity|].
    destruct (call f b); auto.
  - destruct (chain_result _ _); reflexivity.
Qed.

Lemma after_parse_items self u snapshot :
  In (Items snapshot) (after_parse_events self u) ->
  snapshot = stored (parse self u) [].
Proof.
  unfold after_parse_events. destruct (raised _); [intros []|].
  intros [H|H]; [discriminate|].
  apply in_app_or in H as [H|H].
  - exfalso. revert H. generalize (E.BODY (yielded (parse self u))).
    induction (filters self) as [|f fs IH]; intros b; simpl; [tauto|].
    intros [H|[H|H]]; try discriminate.
    destruct (call f b); [now apply IH in H|destruct H].
  - destruct (chain_result _ _); [|destruct H].
    destruct H as [H|[]]. now injection H as <-.
Qed.

Lemma rest_items W ew self u o snapshot :
  In (Items snapshot) (crawl_rest W ew self u o) ->
  snapshot = stored (parse self u) [].
Proof.
  unfold crawl_rest. intros H. apply in_app_or in H as [H|H].
  - now apply after_parse_items.
  - destruct (document_of self u) as [doc|]; [|destruct H].
    unfold serialize_events in H.
    destruct (truthy o); destruct H as [H|[H|[]]]; discriminate.
Qed.

Lemma rest_no_gen W ew self u o :
  forallb (fun ev => negb (is_gen ev)) (crawl_rest W ew self u o) = true.
Proof.
  unfold crawl_rest. rewrite forallb_app, after_parse_no_gen. simpl.
  destruct (document_of self u) as [doc|]; [|reflexivity].
  unfold serialize_events. destruct (truthy o); reflexivity.
Qed.

Lemma document_events_writes self u : writes_of (document_events self u) = [].
Proof.
  unfold document_events, after_parse_events. simpl.
  rewrite writes_of_app, writes_of_gen. simpl.
  destruct (raised _); [reflexivity|]. simpl.
  rewrite writes_of_app, writes_of_chain. simpl.
  destruct (chain_result _ _); reflexivity.
Qed.

Lemma crawl_events_split W ew self u o :
  crawl_events W ew self u o =
  document_events self u ++
  match document_of self u with
  | Return doc => serialize_events W ew doc o
  | Raises _ => []
  end.
Proof.
  unfold crawl_events, crawl_rest, document_events. simpl.
  now rewrite <- app_assoc.
Qed.

Lemma crawl_events_writes W ew self u o :
  writes_of (crawl_events W ew self u o) =
  match document_of self u with
  | Return doc => if truthy o then [(o, fst (ew doc o))] else []
  | Raises _ => []
  end.
Proof.
  rewrite crawl_events_split, writes_of_app, document_events_writes.
  destruct (document_of self u) as [doc|]; [|reflexivity].
  unfold serialize_events. now destruct (truthy o).
Qed.

Section Claims.

Variable W : Type.
Variable tostring : node -> string.
Variable etree_write : node -> output -> string * outcome W.

(** C1.  Take two consecutive crawls on one spider instance, the second
    with a [parse] that writes no metadata.  The second crawl behaves as it
    would from an instance with empty metadata (the reset comes before
    anything reads it), it leaves the metadata empty, the metadata its
    projection reads is empty, and the head of the document it serializes
    holds the charset element and nothing else. *)
Theorem crawl_metadata_isolation self u1 o1 u2 o2 st :
  writes_no_metadata (parse self u2) = true ->
  let st1 := fst (crawl W tostring etree_write self u1 o1 st) in
  let second := crawl W tostring etree_write self u2 o2 in
  second st1 = second {| metadata := []; trace := trace st1 |} /\
  metadata (fst (second st1)) = [] /\
  (forall t snapshot,
     trace (fst (second st1)) = trace st1 ++ t ->
     In (Items snapshot) t -> snapshot = []) /\
  (forall st2 doc,
     crawl_document self u2 st1 = (st2, Return doc) ->
     exists body, doc = E.HTML (E.HEAD [charset_element]) body) /\
  (forall st2 v,
     second st1 = (st2, Return v) ->
     exists body,
       let doc := E.HTML (E.HEAD [charset_element]) body in
       (truthy o2 = false /\ v = Str (tostring doc)) \/
       (truthy o2 = true /\
        exists w, v = WriteResult w /\ snd (etree_write doc o2) = Return w)).
Proof.
  intros Hno st1 second. unfold second.
  assert (Hst : stored (parse self u2) [] = []) by now apply stored_no_write.
  assert (Hdoc : forall doc, document_of self u2 = Return doc ->
            exists body, doc = E.HTML (E.HEAD [charset_element]) body).
  { unfold document_of. rewrite Hst. intros doc H.
    destruct (raised _); [discriminate|].
    destruct (chain_result _ _) as [body|]; [|discriminate].
    injection H as <-. now exists body. }
  split; [|split; [|split; [|split]]].
  - now rewrite !crawl_spec.
  - rewrite crawl_spec. exact Hst.
  - intros t snapshot. rewrite crawl_spec. simpl. intros Ht Hin.
    apply app_inv_head in Ht. subst t. rewrite <- Hst.
    destruct Hin as [Hin|Hin]; [discriminate|].
    apply in_app_or in Hin as [Hin|Hin].
    + apply in_map_iff in Hin as (a & Ha & _). discriminate.
    + now apply rest_items in Hin.
  - intros st2 doc. rewrite crawl_document_spec. intros H.
    injection H as _ H. now apply Hdoc.
  - intros st2 v. rewrite crawl_spec. intros H. injection H as _ H.
    unfold crawl_result in H.
    destruct (document_of self u2) as [doc|] eqn:Ed; [|discriminate].
    destruct (Hdoc doc eq_refl) as [body ->]. exists body. simpl.
    unfold serialize_result in H. destruct (truthy o2).
    + right. split; [reflexivity|].
      destruct (snd (etree_write _ o2)) as [w|]; [|discriminate].
      injection H as <-. now exists w.
    + left. split; [reflexivity|]. now injection H as <-.
Qed.

(** C3.  In a crawl whose filter chain runs to its end, the calls of
    filters recorded in the trace are the configured filters, each once
    and in list order; every filter is called on the one body built from
    what [parse] yielded, with the contents the filters before it left
    (their cumulative effect); and the body of the assembled document is
    that body after the last filter. *)
Theorem filters_applied_once_in_order self u st st' doc :
  crawl_document self u st = (st', Return doc) ->
  let body0 := E.BODY (yielded (parse self u)) in
  exists t,
    trace st' = trace st ++ t /\
    map fst (calls_of t) = filters self /\
    (forall i f,
       nth_error (filters self) i = Some f ->
       nth_error (calls_of t) i =
       Some (f, cumulative (firstn i (filters self)) body0)) /\
    exists head, doc = E.HTML head (cumulative (filters self) body0).
Proof.
  rewrite crawl_document_spec. intros H body0.
  injection H as Hst Hdoc. subst st'.
  exists (document_events self u). split; [reflexivity|].
  unfold document_of in Hdoc. unfold document_events, after_parse_events.
  destruct (raised (parse self u)); [discriminate|].
  fold body0 in Hdoc |- *.
  destruct (chain_result (filters self) body0) as [body|] eqn:Ec;
    [|discriminate].
  destruct (chain_success _ _ _ Ec) as (Hb & Hm & Hn).
  assert (Hcalls :
    calls_of (Log INFO "beginning parse..." [] ::
              map Gen (executed (parse self u)) ++
              Log INFO "applying filters..." [] ::
              chain_events (filters self) body0 ++
              [Items (stored (parse self u) [])]) =
    calls_of (chain_events (filters self) body0)).
  { simpl. rewrite calls_of_app, calls_of_gen. simpl.
    rewrite calls_of_app. simpl. now rewrite app_nil_r. }
  rewrite Hcalls. split; [assumption|]. split; [assumption|].
  injection Hdoc as <-. rewrite <- Hb. eauto.
Qed.

(** C4.  When [parse] completes, the filters before [f] return and [f]
    raises [e], the crawl raises [e] and returns nothing; the filters
    called are those before [f] and [f] itself, none after it; the
    metadata is not projected, no document is assembled, nothing is
    serialized and nothing reaches an output file. *)
Theorem filter_error_aborts_crawl self u o st pre f post body e :
  raised (parse self u) = None ->
  filters self = pre ++ f :: post ->
  chain_result pre (E.BODY (yielded (parse self u))) = Return body ->
  call f body = Raises e ->
  exists st' t,
    crawl W tostring etree_write self u o st = (st', Raises e) /\
    snd (crawl_document self u st) = Raises e /\
    trace st' = trace st ++ t /\
    map fst (calls_of t) = pre ++ [f] /\
    forallb (fun ev => negb (is_items ev || is_output ev)) t = true /\
    writes_of t = [].
Proof.
  intros Hr Hf Hpre Hcall.
  destruct (chain_app pre (f :: post) _ _ Hpre) as [Hres Hev].
  simpl in Hres, Hev. rewrite Hcall in Hres, Hev. rewrite <- Hf in Hres, Hev.
  assert (Hdoc : document_of self u = Raises e).
  { unfold document_of. now rewrite Hr, Hres. }
  rewrite crawl_spec, crawl_document_spec. simpl snd.
  unfold crawl_result. rewrite Hdoc.
  eexists _, _. split; [reflexivity|]. split; [reflexivity|].
  split; [reflexivity|].
  unfold crawl_events, crawl_rest, after_parse_events.
  rewrite Hdoc, Hr, Hres, Hev, !app_nil_r.
  destruct (chain_success _ _ _ Hpre) as (_ & Hm & _).
  split; [|split].
  - simpl. rewrite calls_of_app, calls_of_gen. simpl.
    rewrite calls_of_app, map_app, Hm. reflexivity.
  - simpl. rewrite forallb_app. apply andb_true_intro. split.
    + clear. induction (executed (parse self u)); simpl; auto.
    + simpl. rewrite forallb_app. apply andb_true_intro. split; [|reflexivity].
      generalize (chain_events_quiet pre (E.BODY (yielded (parse self u)))).
      rewrite !forallb_forall. intros Hq ev Hin. specialize (Hq ev Hin).
      unfold quiet in Hq. now destruct ev.
  - simpl. rewrite writes_of_app, writes_of_gen. simpl.
    now rewrite writes_of_app, writes_of_chain.
Qed.

End Claims.

Section Pipeline.

Variable W : Type.
Variable tostring : node -> string.
Variable etree_write : node -> output -> string * outcome W.

(** C7.  The trace of every crawl is: the first log record, then the steps
    of the [parse] generator that ran, then the rest.  The rest holds no
    step of the generator; it is empty unless the generator ran to its end
    without raising; every call of a filter and every read of the metadata
    lies in it; and the metadata the projection reads there is the metadata
    after all the writes of [parse]. *)
Theorem parse_consumed_before_filters self u o st :
  let gen := parse self u in
  let parsing := Log INFO "beginning parse..." [] :: map Gen (executed gen) in
  exists rest,
    trace (fst (crawl W tostring etree_write self u o st)) =
      trace st ++ parsing ++ rest /\
    forallb (fun ev => negb (is_gen ev)) rest = true /\
    (rest <> [] -> raised gen = None /\ executed gen = gen) /\
    forallb (fun ev => negb (is_call ev || is_items ev || is_output ev))
            parsing = true /\
    (forall snapshot, In (Items snapshot) rest -> snapshot = stored gen []) /\
    metadata (fst (crawl W tostring etree_write self u o st)) = stored gen [].
Proof.
  intros gen parsing. exists (crawl_rest W etree_write self u o).
  rewrite crawl_spec. simpl.
  split; [reflexivity|]. split; [apply rest_no_gen|].
  split; [|split; [|split]].
  - intros Hrest. destruct (raised gen) eqn:Er.
    + exfalso. apply Hrest. unfold crawl_rest, after_parse_events, document_of.
      fold gen. now rewrite Er.
    + split; [reflexivity|]. now apply executed_all.
  - clear. induction (executed gen); simpl; auto.
  - intros snapshot. apply rest_items.
  - reflexivity.
Qed.

(** What the truth test on [output_file] decides: an argument that tests
    false is treated as no argument at all, and one that tests true is
    written to. *)
Lemma crawl_untrue_output self u o st :
  truthy o = false ->
  crawl W tostring etree_write self u o st =
  crawl W tostring etree_write self u NoOutput st.
Proof.
  intros Ho. rewrite !crawl_spec.
  unfold crawl_result, crawl_events, crawl_rest, serialize_result,
    serialize_events. now rewrite Ho.
Qed.

Lemma crawl_true_output self u o st st' v :
  truthy o = true ->
  crawl W tostring etree_write self u o st = (st', Return v) ->
  exists doc w,
    document_of self u = Return doc /\
    snd (etree_write doc o) = Return w /\
    v = WriteResult w /\
    writes_of (trace st') =
      writes_of (trace st) ++ [(o, fst (etree_write doc o))].
Proof.
  intros Ho. rewrite crawl_spec. intros H. injection H as <- H.
  unfold crawl_result in H. unfold extend. simpl trace.
  rewrite writes_of_app, crawl_events_writes, Ho.
  destruct (document_of self u) as [doc|]; [|discriminate].
  unfold serialize_result in H. rewrite Ho in H.
  destruct (snd (etree_write doc o)) as [w|e] eqn:Ew; [|discriminate].
  injection H as <-. exists doc, w. auto.
Qed.

End Pipeline.


(** ** Concrete runs *)

Module Run.

Import Example.

(** The model's [crawl] and [fetch] with the stand-in libraries. *)
Lemma mark_returns m body : exists body', call (mark m) body = Return body'.
Proof. destruct body. simpl. eauto. Qed.

Lemma story_document st :
  crawl_document story story_url st =
  (extend st story_metadata (document_events story story_url),
   Return story_doc).
Proof. rewrite crawl_document_spec. reflexivity. Qed.

Lemma story_string st :
  crawl unit tostring etree_write story story_url NoOutput st =
  (extend st story_metadata
     (crawl_events unit etree_write story story_url NoOutput),
   Return (Str (tostring story_doc))).
Proof. rewrite crawl_spec. reflexivity. Qed.

Lemma story_rendered :
  tostring story_doc =
  "<!doctype html><html><head><meta charset='UTF-8'></meta><title>A Tale</title><meta name='author' content='Anon'></meta></head><body data-f1='seen' data-f2='seen' data-f3='seen'><p>Once</p><p>upon a time</p></body></html>".
Proof. reflexivity. Qed.

End Run.

(** C1 on the spider [story]: its first story sets a title and an author,
    the crawl of another story after it starts from empty metadata. *)
Lemma crawl_metadata_isolation_witness :
  let crawl := crawl unit Example.tostring Example.etree_write Example.story in
  let st1 := fst (crawl Example.story_url NoOutput Example.fresh) in
  writes_no_metadata (parse Example.story Example.other_url) = true /\
  metadata st1 = [("title", "A Tale"); ("author", "Anon")] /\
  metadata (fst (crawl Example.other_url NoOutput st1)) = [].
Proof.
  split; [reflexivity|]. split; [reflexivity|].
  exact (proj1 (proj2
    (crawl_metadata_isolation unit Example.tostring Example.etree_write
       Example.story Example.story_url NoOutput Example.other_url NoOutput
       Example.fresh eq_refl))).
Defined.


(** C3 on the spider [story]: three filters, each called once, in order,
    the third on the body the first two left. *)
Lemma filters_applied_once_in_order_witness :
  exists t,
    trace (extend Example.fresh Example.story_metadata
             (document_events Example.story Example.story_url)) = t /\
    map fst (calls_of t) =
      [Example.mark "f1"; Example.mark "f2"; Example.mark "f3"] /\
    nth_error (calls_of t) 2 =
      Some (Example.mark "f3",
            Element "body" [("data-f1", "seen"); ("data-f2", "seen")] None
              [Example.p "Once"; Example.p "upon a time"]).
Proof.
  destruct (filters_applied_once_in_order Example.story Example.story_url
              Example.fresh _ Example.story_doc
              (Run.story_document Example.fresh)) as (t & Ht & Hm & Hn & _).
  exists t. split; [exact Ht|]. split; [exact Hm|].
  exact (Hn 2 (Example.mark "f3") eq_refl).
Defined.

(** C4 on the spider [fragile], whose second filter raises. *)
Lemma filter_error_aborts_crawl_witness :
  exists st' t,
    crawl unit Example.tostring Example.etree_write Example.fragile
      Example.story_url (Filename "story.html") Example.fresh
      = (st', Raises Example.boom) /\
    trace st' = t /\
    map fst (calls_of t) = [Example.mark "f1"; Example.broken] /\
    writes_of t = [].
Proof.
  destruct (filter_error_aborts_crawl unit Example.tostring Example.etree_write
              Example.fragile Example.story_url (Filename "story.html")
              Example.fresh [Example.mark "f1"] Example.broken
              [Example.mark "f3"]
              (Element "body" [("data-f1", "seen")] None
                 [Example.p "Once"; Example.p "upon a time"])
              Example.boom eq_refl eq_refl eq_refl eq_refl)
    as (st' & t & Hc & _ & Ht & Hm & _ & Hw).
  exists st', t. auto.
Defined.

(** C7 on the spider [story]: the generator has run to its end when the
    first filter is called. *)
Lemma parse_consumed_before_filters_witness :
  exists rest,
    trace (fst (crawl unit Example.tostring Example.etree_write Example.story
                  Example.story_url NoOutput Example.fresh)) =
      Log INFO "beginning parse..." [] ::
      map Gen (parse Example.story Example.story_url) ++ rest /\
    forallb (fun ev => negb (is_gen ev)) rest = true.
Proof.
  destruct (parse_consumed_before_filters unit Example.tostring
              Example.etree_write Example.story Example.story_url NoOutput
              Example.fresh) as (rest & Ht & Hg & _).
  exists rest. split; [exact Ht|exact Hg].
Defined.

(** C9 at a file-like object whose truth value is false, and at the empty
    filename: the crawl does what it does with no output file.  It returns
    the serialized document as a string and writes nothing. *)
Lemma crawl_ignores_untrue_output_file :
  let crawl :=
    crawl unit Example.tostring Example.etree_write Example.story
      Example.story_url in
  crawl Example.empty_buffer Example.fresh = crawl NoOutput Example.fresh /\
  snd (crawl Example.empty_buffer Example.fresh) =
    Return (Str (Example.tostring Example.story_doc)) /\
  writes_of (trace (fst (crawl Example.empty_buffer Example.fresh))) = [] /\
  crawl (Filename EmptyString) Example.fresh = crawl NoOutput Example.fresh.
Proof.
  intros crawl. unfold crawl.
  rewrite !crawl_untrue_output, Run.story_string by reflexivity.
  repeat split.
Qed.

(** C10 on the spider [story], whose [parse] sets one title. *)
Lemma head_has_at_most_one_title_witness :
  NoDup (keys Example.story_metadata) /\
  exists body,
    Example.story_doc =
      E.HTML (E.HEAD (generate_meadata_elements Example.story_metadata)) body /\
    length (filter is_title (generate_meadata_elements Example.story_metadata))
      <= 1.
Proof.
  exact (head_has_at_most_one_title Example.story Example.story_url
           Example.fresh _ Example.story_doc
           (Run.story_document Example.fresh)).
Defined.

(** ** Further properties of the metadata *)

Lemma getitem_setitem k k' v d :
  getitem k (setitem k' v d) =
  if String.eqb k' k then Some v else getitem k d.
Proof.
  induction d as [|[k0 v0] d IH]; simpl; [reflexivity|].
  destruct (String.eqb_spec k0 k') as [->|Hne]; simpl.
  - now destruct (String.eqb k' k).
  - rewrite IH.
    destruct (String.eqb_spec k0 k) as [->|Hk]; [|reflexivity].
    destruct (String.eqb_spec k' k) as [->|_]; [now destruct Hne|reflexivity].
Qed.

Lemma getitem_absent k d : ~ In k (keys d) -> getitem k d = None.
Proof.
  induction d as [|[k0 v0] d IH]; simpl; intros H; [reflexivity|].
  destruct (String.eqb_spec k0 k) as [->|_]; [destruct H; now left|].
  apply IH. intros Hin. apply H. now right.
Qed.

Lemma getitem_popitem k k' d :
  NoDup (keys d) ->
  getitem k (popitem k' d) = if String.eqb k' k then None else getitem k d.
Proof.
  induction d as [|[k0 v0] d IH]; simpl; intros Hnd.
  - now destruct (String.eqb k' k).
  - inversion_clear Hnd as [|? ? Hnin Hnd'].
    destruct (String.eqb_spec k0 k') as [->|Hne]; simpl.
    + destruct (String.eqb_spec k' k) as [->|_]; [|reflexivity].
      now apply getitem_absent.
    + rewrite (IH Hnd').
      destruct (String.eqb_spec k0 k) as [->|Hk]; [|reflexivity].
      destruct (String.eqb_spec k' k) as [->|_]; [now destruct Hne|reflexivity].
Qed.

Lemma getitem_stored k gen : forall md,
  NoDup (keys md) ->
  getitem k (stored gen md) = written k gen (getitem k md).
Proof.
  induction gen as [|a gen IH]; intros md Hnd; simpl; [reflexivity|].
  destruct a as [n|k' v|k'|e]; auto.
  - rewrite IH by now apply NoDup_setitem. now rewrite getitem_setitem.
  - rewrite IH by now apply NoDup_popitem. now rewrite getitem_popitem.
Qed.

Lemma setitem_In k v d x : In x (setitem k v d) -> x = (k, v) \/ In x d.
Proof.
  induction d as [|[k0 v0] d IH]; simpl.
  - intros [<-|[]]. now left.
  - destruct (String.eqb_spec k0 k) as [->|_]; simpl.
    + intros [<-|H]; auto.
    + intros [<-|H]; auto. destruct (IH H); auto.
Qed.

Lemma popitem_In k d x : In x (popitem k d) -> In x d.
Proof.
  induction d as [|[k0 v0] d IH]; simpl; [auto|].
  destruct (String.eqb k0 k); simpl; intros H; auto.
  destruct H; auto.
Qed.

Lemma stored_In gen : forall md k v,
  In (k, v) (stored gen md) ->
  In (k, v) md \/ In (SetItem k v) (executed gen).
Proof.
  induction gen as [|a gen IH]; intros md k v H; simpl in *; [auto|].
  destruct a as [n|k' v'|k'|e]; simpl.
  - destruct (IH _ _ _ H); auto.
  - destruct (IH _ _ _ H) as [Hin|Hin]; [|auto].
    apply setitem_In in Hin as [Heq|Hin]; [|auto].
    injection Heq as -> ->. auto.
  - destruct (IH _ _ _ H) as [Hin|Hin]; [|auto].
    apply popitem_In in Hin. auto.
  - auto.
Qed.

Lemma executed_In a gen : In a (executed gen) -> In a gen.
Proof.
  induction gen as [|b gen IH]; simpl; [auto|].
  destruct b; simpl; intros [H|H]; auto; destruct H.
Qed.

Lemma no_title_key d :
  ~ In "title" (keys d) -> filter is_title (metadata_elements d) = [].
Proof.
  induction d as [|[k v] d IH]; simpl; intros H; [reflexivity|].
  destruct (String.eqb_spec k "title") as [->|_]; [destruct H; now left|].
  simpl. apply IH. intros Hin. apply H. now right.
Qed.

Lemma titles_of_metadata d :
  NoDup (keys d) ->
  filter is_title (metadata_elements d) =
  match getitem "title" d with
  | Some v => [E.TITLE v]
  | None => []
  end.
Proof.
  induction d as [|[k v] d IH]; simpl; intros Hnd; [reflexivity|].
  inversion_clear Hnd as [|? ? Hnin Hnd'].
  destruct (String.eqb_spec k "title") as [->|_]; simpl.
  - now rewrite no_title_key.
  - now apply IH.
Qed.

Lemma document_built self u st st' doc :
  crawl_document self u st = (st', Return doc) ->
  raised (parse self u) = None /\
  metadata st' = stored (parse self u) [] /\
  exists body,
    chain_result (filters self) (E.BODY (yielded (parse self u)))
      = Return body /\
    doc = E.HTML (E.HEAD (generate_meadata_elements (metadata st'))) body.
Proof.
  rewrite crawl_document_spec. intros H. injection H as <- Hdoc.
  unfold document_of in Hdoc.
  destruct (raised (parse self u)); [discriminate|].
  destruct (chain_result _ _) as [body|] eqn:Ec; [|discriminate].
  injection Hdoc as <-. simpl. eauto.
Qed.

(** X4.  Whatever the instance held before, every element in the head of
    the document a crawl assembles is the charset declaration or stands for
    an entry that the [parse] of this very crawl assigned: some step
    [self.metadata[k] = v] of its generator ran. *)
Theorem head_entries_written_by_parse self u st st' doc :
  crawl_document self u st = (st', Return doc) ->
  exists elements body,
    doc = E.HTML (E.HEAD (charset_element :: elements)) body /\
    forall el,
      In el elements ->
      exists k v, In (SetItem k v) (parse self u) /\ projects (k, v) el.
Proof.
  intros H. destruct (document_built _ _ _ _ _ H) as (_ & Hmd & body & _ & ->).
  rewrite Hmd. unfold generate_meadata_elements, items.
  exists (metadata_elements (stored (parse self u) [])), body.
  split; [reflexivity|]. intros el Hin.
  pose proof (metadata_elements_projects (stored (parse self u) [])) as Hall.
  revert Hall Hin. generalize (metadata_elements (stored (parse self u) [])).
  assert (Hsrc : forall kv, In kv (stored (parse self u) []) ->
                   In (SetItem (fst kv) (snd kv)) (parse self u)).
  { intros [k v] Hkv. apply stored_In in Hkv as [[]|Hkv].
    now apply executed_In. }
  revert Hsrc. generalize (stored (parse self u) []).
  intros d Hsrc els Hall. induction Hall as [|[k v] e d' els' Hp Hall IH].
  - intros [].
  - intros [<-|Hin].
    + exists k, v. split; [|assumption]. apply (Hsrc (k, v)). now left.
    + apply IH; [|assumption]. intros kv Hkv. apply Hsrc. now right.
Qed.

(** X5.  The head of an assembled document has a title element exactly when
    the steps of [parse] leave a value under the key ["title"]: one title
    element, wrapping the value last assigned; none when the key was never
    assigned or was dropped after its last assignment. *)
Theorem title_is_last_written self u st st' doc :
  crawl_document self u st = (st', Return doc) ->
  exists elements body,
    doc = E.HTML (E.HEAD elements) body /\
    filter is_title elements =
    match written "title" (parse self u) None with
    | Some v => [E.TITLE v]
    | None => []
    end.
Proof.
  intros H. destruct (document_built _ _ _ _ _ H) as (_ & Hmd & body & _ & ->).
  exists (generate_meadata_elements (metadata st')), body.
  split; [reflexivity|]. rewrite Hmd.
  assert (Hnd : NoDup (keys (stored (parse self u) []))).
  { apply NoDup_stored. constructor. }
  unfold generate_meadata_elements, items. simpl.
  rewrite (titles_of_metadata _ Hnd), getitem_stored by constructor.
  reflexivity.
Qed.

(** ** Further properties of the pipeline *)

Lemma logs_of_app t1 t2 : logs_of (t1 ++ t2) = logs_of t1 ++ logs_of t2.
Proof.
  induction t1 as [|ev t1 IH]; simpl; [reflexivity|].
  destruct ev; simpl; now rewrite ?IH.
Qed.

Lemma logs_of_gen gen : logs_of (map Gen gen) = [].
Proof. induction gen; simpl; auto. Qed.

Lemma logs_of_chain fs : forall body body',
  chain_result fs body = Return body' ->
  logs_of (chain_events fs body) = map running fs.
Proof.
  induction fs as [|f fs IH]; intros body body' H; simpl in *; [reflexivity|].
  destruct (call f body) as [b1|]; [|discriminate].
  unfold running at 1. f_equal. eauto.
Qed.

Lemma chain_keeps_tag fs : forall body body',
  Forall keeps_tag fs ->
  chain_result fs body = Return body' -> tag_of body' = tag_of body.
Proof.
  induction fs as [|f fs IH]; intros body body' Hall H; simpl in H.
  - now injection H as <-.
  - inversion_clear Hall as [|? ? Hf Hfs].
    destruct (call f body) as [b1|] eqn:Ec; [|discriminate].
    rewrite (IH _ _ Hfs H). now apply Hf.
Qed.

Lemma generator_interrupted pre e post :
  raised pre = None ->
  raised (pre ++ Raise e :: post) = Some e /\
  executed (pre ++ Raise e :: post) = pre ++ [Raise e] /\
  forall md, stored (pre ++ Raise e :: post) md = stored pre md.
Proof.
  induction pre as [|a pre IH]; simpl; intros H; [auto|].
  destruct a; try discriminate; destruct (IH H) as (-> & -> & Hs); auto.
Qed.

(** X6.  The document a crawl assembles is an [html] element with exactly
    two children: a [head] that starts with the charset declaration, and the
    body object.  With an empty filter list the body is the [body] element
    holding what [parse] yielded, in order; and when no filter changes the
    tag of what it is given, the second child is still a [body] element. *)
Theorem document_is_head_and_body self u st st' doc :
  crawl_document self u st = (st', Return doc) ->
  exists elements body,
    doc = Element "html" [] None
            [Element "head" [] None (charset_element :: elements); body] /\
    (filters self = [] -> body = E.BODY (yielded (parse self u))) /\
    (Forall keeps_tag (filters self) -> tag_of body = "body").
Proof.
  intros H. destruct (document_built _ _ _ _ _ H) as (_ & _ & body & Hc & ->).
  exists (metadata_elements (items (metadata st'))), body.
  split; [reflexivity|]. split.
  - intros Hnil. rewrite Hnil in Hc. simpl in Hc. now injection Hc as <-.
  - intros Hall. now rewrite (chain_keeps_tag _ _ _ Hall Hc).
Qed.

Section PipelineEdges.

Variable W : Type.
Variable tostring : node -> string.
Variable etree_write : node -> output -> string * outcome W.

(** X3.  When the generator of [parse] raises [e] after the steps [pre], the
    crawl raises [e]; the metadata of the instance keeps what [pre] wrote
    (it is not rolled back); and all the crawl has done is log its first
    record and run [pre] and the raising step: no step after the raise, no
    filter, no read of the metadata, no serialization. *)
Theorem parse_error_keeps_earlier_writes self u o st pre e post :
  parse self u = pre ++ Raise e :: post ->
  raised pre = None ->
  crawl W tostring etree_write self u o st =
  ({| metadata := stored pre [];
      trace := trace st ++
               Log INFO "beginning parse..." [] :: map Gen pre ++
               [Gen (Raise e)] |},
   Raises e).
Proof.
  intros Hp Hpre. destruct (generator_interrupted pre e post Hpre)
    as (Hr & He & Hs).
  rewrite crawl_spec.
  unfold crawl_result, crawl_events, crawl_rest, after_parse_events,
    document_of, extend.
  rewrite Hp, Hr, He, Hs, map_app. simpl. now rewrite app_nil_r.
Qed.

(** X1.  When a filter raises, the trace of the crawl ends with the DEBUG
    record that names this filter, by [_filter_name], and the call of it:
    the last filter the log names is the one that failed. *)
Theorem failing_filter_is_last_logged self u o st pre f post body e :
  raised (parse self u) = None ->
  filters self = pre ++ f :: post ->
  chain_result pre (E.BODY (yielded (parse self u))) = Return body ->
  call f body = Raises e ->
  exists t,
    trace (fst (crawl W tostring etree_write self u o st)) =
      trace st ++ t ++
      [Log DEBUG "running filter %s" [_filter_name f]; Call f body] /\
    logs_of t =
      (INFO, "beginning parse...", []) :: (INFO, "applying filters...", []) ::
      map running pre.
Proof.
  intros Hr Hf Hpre Hcall.
  destruct (chain_app pre (f :: post) _ _ Hpre) as [Hres Hev].
  simpl in Hres, Hev. rewrite Hcall in Hres, Hev. rewrite <- Hf in Hres, Hev.
  rewrite crawl_spec. simpl fst.
  unfold crawl_events, crawl_rest, after_parse_events, document_of, extend.
  rewrite Hr, Hres, Hev. simpl trace.
  exists (Log INFO "beginning parse..." [] ::
          map Gen (executed (parse self u)) ++
          Log INFO "applying filters..." [] ::
          chain_events pre (E.BODY (yielded (parse self u)))).
  split.
  - f_equal. simpl. f_equal. rewrite ?app_nil_r, <- app_assoc. reflexivity.
  - simpl. rewrite logs_of_app, logs_of_gen. simpl.
    now rewrite (logs_of_chain _ _ _ Hpre).
Qed.

(** X2.  The log of a crawl that returns is: [beginning parse...],
    [applying filters...], one DEBUG record per configured filter, in list
    order, naming it, and last [writing document...] when the output file
    tests true, [tostring on document...] otherwise; all but the filter
    records at level INFO. *)
Theorem crawl_log_records self u o st st' v :
  crawl W tostring etree_write self u o st = (st', Return v) ->
  exists t,
    trace st' = trace st ++ t /\
    logs_of t =
      (INFO, "beginning parse...", []) :: (INFO, "applying filters...", []) ::
      map running (filters self) ++
      [(INFO,
        if truthy o then "writing document..." else "tostring on document...",
        [])].
Proof.
  rewrite crawl_spec. intros H. injection H as <- H.
  exists (crawl_events W etree_write self u o). split; [reflexivity|].
  unfold crawl_result, document_of in H.
  unfold crawl_events, crawl_rest, after_parse_events, document_of.
  destruct (raised (parse self u)); [discriminate|].
  destruct (chain_result _ _) as [body|] eqn:Ec; [|discriminate].
  simpl. rewrite logs_of_app, logs_of_gen. simpl.
  rewrite !logs_of_app, (logs_of_chain _ _ _ Ec). simpl.
  unfold serialize_events. rewrite app_nil_r. now destruct (truthy o).
Qed.

(** X7.  With an output file that tests true, a crawl that returns never
    returns the HTML string: it returns what [write] returned, and it has
    put into that file, once, what [write] rendered of the document it
    assembled; nothing is written anywhere else. *)
Theorem output_file_gets_document self u o st st' v :
  truthy o = true ->
  crawl W tostring etree_write self u o st = (st', Return v) ->
  exists st1 doc w,
    crawl_document self u st = (st1, Return doc) /\
    snd (etree_write doc o) = Return w /\
    v = WriteResult w /\
    writes_of (trace st') =
      writes_of (trace st) ++ [(o, fst (etree_write doc o))].
Proof.
  intros Ho H.
  destruct (crawl_true_output W tostring etree_write _ _ _ _ _ _ Ho H)
    as (doc & w & Hd & Hw & -> & Hws).
  eexists _, doc, w. rewrite crawl_document_spec, Hd. auto.
Qed.

End PipelineEdges.


(** ** More concrete runs *)

Module Edge.

Import Example.

Lemma mark_keeps_tag m : keeps_tag (mark m).
Proof.
  intros [t a x c] body' H. simpl in H. now injection H as <-.
Qed.

Lemma story_file st :
  crawl unit tostring etree_write story story_url (Filename "story.html") st =
  (extend st story_metadata
     (crawl_events unit etree_write story story_url (Filename "story.html")),
   Return (WriteResult tt)).
Proof. rewrite crawl_spec. reflexivity. Qed.

End Edge.

(** X1 on the spider [fragile]: the log ends by naming the filter that
    raised. *)
Lemma failing_filter_is_last_logged_witness :
  exists t,
    trace (fst (crawl unit Example.tostring Example.etree_write
                  Example.fragile Example.story_url NoOutput Example.fresh)) =
      t ++
      [Log DEBUG "running filter %s" ["fiction_scraper.filters.Broken"];
       Call Example.broken
         (Element "body" [("data-f1", "seen")] None
            [Example.p "Once"; Example.p "upon a time"])] /\
    logs_of t =
      [(INFO, "beginning parse...", []); (INFO, "applying filters...", []);
       (DEBUG, "running filter %s", ["fiction_scraper.filters.f1"])].
Proof.
  exact (failing_filter_is_last_logged unit Example.tostring
           Example.etree_write Example.fragile Example.story_url NoOutput
           Example.fresh [Example.mark "f1"] Example.broken
           [Example.mark "f3"]
           (Element "body" [("data-f1", "seen")] None
              [Example.p "Once"; Example.p "upon a time"])
           Example.boom eq_refl eq_refl eq_refl eq_refl).
Defined.

(** X2 on the spider [story], without an output file. *)
Lemma crawl_log_records_witness :
  exists t,
    trace (extend Example.fresh Example.story_metadata
             (crawl_events unit Example.etree_write Example.story
                Example.story_url NoOutput)) = t /\
    logs_of t =
      [(INFO, "beginning parse...", []); (INFO, "applying filters...", []);
       (DEBUG, "running filter %s", ["fiction_scraper.filters.f1"]);
       (DEBUG, "running filter %s", ["fiction_scraper.filters.f2"]);
       (DEBUG, "running filter %s", ["fiction_scraper.filters.f3"]);
       (INFO, "tostring on document...", [])].
Proof.
  exact (crawl_log_records unit Example.tostring Example.etree_write
           Example.story Example.story_url NoOutput Example.fresh _ _
           (Run.story_string Example.fresh)).
Defined.

(** X3 on the spider [interrupted]: the title written before the raise
    stays, the author set after it is never written. *)
Lemma parse_error_keeps_earlier_writes_witness :
  crawl unit Example.tostring Example.etree_write Example.interrupted
    Example.story_url NoOutput Example.fresh =
  ({| metadata := [("title", "A Tale")];
      trace := [Log INFO "beginning parse..." [];
                Gen (SetItem "title" "Draft"); Gen (Yield (Example.p "Once"));
                Gen (SetItem "title" "A Tale"); Gen (Raise Example.boom)] |},
   Raises Example.boom).
Proof.
  exact (parse_error_keeps_earlier_writes unit Example.tostring
           Example.etree_write Example.interrupted Example.story_url NoOutput
           Example.fresh
           [SetItem "title" "Draft"; Yield (Example.p "Once");
            SetItem "title" "A Tale"]
           Example.boom
           [SetItem "author" "Anon"; Yield (Example.p "never")]
           eq_refl eq_refl).
Defined.

(** X4 on the spider [story]. *)
Lemma head_entries_written_by_parse_witness :
  exists elements body,
    Example.story_doc = E.HTML (E.HEAD (charset_element :: elements)) body /\
    forall el,
      In el elements ->
      exists k v,
        In (SetItem k v) (parse Example.story Example.story_url) /\
        projects (k, v) el.
Proof.
  exact (head_entries_written_by_parse Example.story Example.story_url
           Example.fresh _ Example.story_doc
           (Run.story_document Example.fresh)).
Defined.

(** X5 on the spider [retitled], which assigns the title twice and drops
    the author: one title, the last. *)
Lemma title_is_last_written_witness :
  exists elements body,
    E.HTML (E.HEAD [charset_element; E.TITLE "A Tale"])
           (E.BODY [Example.p "Once"]) =
      E.HTML (E.HEAD elements) body /\
    filter is_title elements = [E.TITLE "A Tale"].
Proof.
  exact (title_is_last_written Example.retitled Example.story_url
           Example.fresh _
           (E.HTML (E.HEAD [charset_element; E.TITLE "A Tale"])
                   (E.BODY [Example.p "Once"]))
           (crawl_document_spec Example.retitled Example.story_url
              Example.fresh)).
Defined.

(** X6 on the spider [story], whose filters only add attributes. *)
Lemma document_is_head_and_body_witness :
  exists elements body,
    Example.story_doc =
      Element "html" [] None
        [Element "head" [] None (charset_element :: elements); body] /\
    tag_of body = "body".
Proof.
  destruct (document_is_head_and_body Example.story Example.story_url
              Example.fresh _ Example.story_doc
              (Run.story_document Example.fresh))
    as (elements & body & Hdoc & _ & Htag).
  exists elements, body. split; [exact Hdoc|].
  apply Htag. repeat constructor; apply Edge.mark_keeps_tag.
Defined.

(** X7 on the spider [story] and the file [story.html]. *)
Lemma output_file_gets_document_witness :
  exists st1 doc w,
    crawl_document Example.story Example.story_url Example.fresh
      = (st1, Return doc) /\
    snd (Example.etree_write doc (Filename "story.html")) = Return w /\
    WriteResult tt = WriteResult w /\
    writes_of
      (trace (extend Example.fresh Example.story_metadata
                (crawl_events unit Example.etree_write Example.story
                   Example.story_url (Filename "story.html")))) =
      writes_of (trace Example.fresh) ++
      [(Filename "story.html",
        fst (Example.etree_write doc (Filename "story.html")))].
Proof.
  exact (output_file_gets_document unit Example.tostring Example.etree_write
           Example.story Example.story_url (Filename "story.html")
           Example.fresh _ _ eq_refl (Edge.story_file Example.fresh)).
Defined.

Section ProjectionOrder.

Variable W : Type.
Variable tostring : node -> string.
Variable etree_write : node -> output -> string * outcome W.

Lemma chain_events_no_items fs : forall body,
  forallb (fun ev => negb (is_items ev)) (chain_events fs body) = true.
Proof.
  induction fs as [|f fs IH]; intros body; simpl; [reflexivity|].
  destruct (call f body); auto.
Qed.

(** X9.  A crawl that returns reads [self.metadata] exactly once, and it
    reads what the instance holds when the crawl ends.  Every configured
    filter has been called before that read, and none is called after it:
    what follows the read is the serialization only. *)
Theorem metadata_read_once_after_filters self u o st st' v :
  crawl W tostring etree_write self u o st = (st', Return v) ->
  exists before after,
    trace st' = trace st ++ before ++ Items (metadata st') :: after /\
    forallb (fun ev => negb (is_items ev)) (before ++ after) = true /\
    map fst (calls_of before) = filters self /\
    calls_of after = [] /\
    forallb (fun ev => negb (is_gen ev)) after = true.
Proof.
  rewrite crawl_spec. intros H. injection H as <- H.
  unfold crawl_result in H. simpl.
  unfold crawl_events, crawl_rest, after_parse_events.
  destruct (document_of self u) as [doc|] eqn:Ed; [|discriminate].
  unfold document_of in Ed.
  destruct (raised (parse self u)); [discriminate|].
  destruct (chain_result _ _) as [body|] eqn:Ec; [|discriminate].
  destruct (chain_success _ _ _ Ec) as (_ & Hm & _).
  exists (Log INFO "beginning parse..." [] ::
          map Gen (executed (parse self u)) ++
          Log INFO "applying filters..." [] ::
          chain_events (filters self) (E.BODY (yielded (parse self u)))),
         (serialize_events W etree_write doc o).
  split; [|split; [|split; [|split]]].
  - f_equal. simpl. f_equal. rewrite <- !app_assoc. reflexivity.
  - simpl. rewrite <- app_assoc, !forallb_app. simpl.
    rewrite chain_events_no_items.
    assert (Hg : forallb (fun ev => negb (is_items ev))
                   (map Gen (executed (parse self u))) = true).
    { clear. induction (executed (parse self u)); simpl; auto. }
    rewrite Hg. unfold serialize_events. now destruct (truthy o).
  - simpl. rewrite calls_of_app, calls_of_gen. simpl. exact Hm.
  - unfold serialize_events. now destruct (truthy o).
  - unfold serialize_events. now destruct (truthy o).
Qed.

End ProjectionOrder.

(** X9 on the spider [story]. *)
Lemma metadata_read_once_after_filters_witness :
  exists before after,
    trace (extend Example.fresh Example.story_metadata
             (crawl_events unit Example.etree_write Example.story
                Example.story_url NoOutput)) =
      before ++ Items Example.story_metadata :: after /\
    map fst (calls_of before) =
      [Example.mark "f1"; Example.mark "f2"; Example.mark "f3"] /\
    calls_of after = [].
Proof.
  destruct (metadata_read_once_after_filters unit Example.tostring
              Example.etree_write Example.story Example.story_url NoOutput
              Example.fresh _ _ (Run.story_string Example.fresh))
    as (before & after & Ht & _ & Hm & Hc & _).
  exists before, after. split; [exact Ht|]. split; [exact Hm|exact Hc].
Defined.

(** ** The exceptions of a crawl, stage by stage *)

Section RaisingFacts.

Variable W : Type.
Variable L : Raising.library W.

Lemma raising_crawl_result self u o st :
  snd (Raising.crawl W L self u o st) = Raising.staged_result W L self u o.
Proof.
  unfold Raising.crawl, Raising.crawl_document, Raising.staged_result,
    Raising.parsed, Raising.projected, Raising._generate_meadata_elements.
  unfold bind, set_metadata, info, emit, lift, ret, get_metadata. simpl.
  rewrite star_spec. simpl.
  destruct (raised (parse self u)); [reflexivity|].
  destruct (Raising.BODY L (yielded (parse self u))) as [body0|];
    [|reflexivity].
  rewrite apply_filters_spec. simpl.
  destruct (chain_result (filters self) body0) as [body|]; [|reflexivity].
  destruct (Raising.META L [("charset", "UTF-8")]) as [charset|];
    [|reflexivity].
  destruct (Raising.metadata_elements W L _) as [elements|]; [|reflexivity].
  destruct (Raising.HEAD L (charset :: elements)) as [head|]; [|reflexivity].
  destruct (Raising.HTML L head body) as [doc|]; [|reflexivity].
  unfold Raising.serialize, Raising.serialized, bind, info, emit, lift, ret,
    raise.
  destruct (truthy o); simpl.
  - destruct (Raising.write L doc o) as [data [w|e]]; reflexivity.
  - destruct (Raising.tostring L doc); reflexivity.
Qed.

(** C8, as the code has it.  Whichever stage of a crawl raises (the
    generator of [parse] or [E.BODY] on line 85, a filter, the projection of
    the metadata on line 94, the assembly on line 96, [write] or [tostring])
    once the stages before it have returned, the caller of [crawl] gets the
    exception of that stage as the stage raised it.  Nothing is caught: a
    crawl raises exactly when one of its stages does, and returns when none
    does. *)
Theorem crawl_error_propagates_unchanged self u o st :
  let result := snd (Raising.crawl W L self u o st) in
  (forall e, raised (parse self u) = Some e -> result = Raises e) /\
  (forall e, Raising.parsed W L self u = Raises e -> result = Raises e) /\
  (forall body0 e,
     Raising.parsed W L self u = Return body0 ->
     chain_result (filters self) body0 = Raises e -> result = Raises e) /\
  (forall body0 body e,
     Raising.parsed W L self u = Return body0 ->
     chain_result (filters self) body0 = Return body ->
     Raising.projected W L self u = Raises e -> result = Raises e) /\
  (forall body0 body head e,
     Raising.parsed W L self u = Return body0 ->
     chain_result (filters self) body0 = Return body ->
     Raising.projected W L self u = Return head ->
     Raising.HTML L head body = Raises e -> result = Raises e) /\
  (forall body0 body head doc e,
     Raising.parsed W L self u = Return body0 ->
     chain_result (filters self) body0 = Return body ->
     Raising.projected W L self u = Return head ->
     Raising.HTML L head body = Return doc ->
     (truthy o = true /\ snd (Raising.write L doc o) = Raises e) \/
     (truthy o = false /\ Raising.tostring L doc = Raises e) ->
     result = Raises e) /\
  (forall e,
     result = Raises e ->
     exists s, Raising.failing_stage W L self u o = Some (s, e)) /\
  (Raising.failing_stage W L self u o = None -> exists v, result = Return v).
Proof.
  intros result. unfold result. rewrite raising_crawl_result.
  unfold Raising.staged_result, Raising.failing_stage.
  split; [|split; [|split; [|split; [|split; [|split; [|split]]]]]].
  - intros e He. unfold Raising.parsed. now rewrite He.
  - now intros e ->.
  - now intros body0 e -> ->.
  - now intros body0 body e -> -> ->.
  - now intros body0 body head e -> -> -> ->.
  - intros body0 body head doc e -> -> -> ->. unfold Raising.serialized.
    intros [[-> ->]|[-> ->]]; reflexivity.
  - intros e.
    destruct (Raising.parsed W L self u) as [body0|e0];
      [|intros [= <-]; eauto].
    destruct (chain_result (filters self) body0) as [body|e0];
      [|intros [= <-]; eauto].
    destruct (Raising.projected W L self u) as [head|e0];
      [|intros [= <-]; eauto].
    destruct (Raising.HTML L head body) as [doc|e0]; [|intros [= <-]; eauto].
    destruct (Raising.serialized W L doc o) as [v|e0];
      [discriminate|intros [= <-]; eauto].
  - destruct (Raising.parsed W L self u) as [body0|e0]; [|discriminate].
    destruct (chain_result (filters self) body0) as [body|e0];
      [|discriminate].
    destruct (Raising.projected W L self u) as [head|e0]; [|discriminate].
    destruct (Raising.HTML L head body) as [doc|e0]; [|discriminate].
    destruct (Raising.serialized W L doc o) as [v|e0]; [eauto|discriminate].
Qed.

End RaisingFacts.

(** With a library that never raises, the crawl whose calls may raise is
    the crawl of the first part. *)
Lemma total_metadata_elements W tostring etree_write its :
  Raising.metadata_elements W (Raising.total W tostring etree_write) its =
  Return (metadata_elements its).
Proof.
  induction its as [|[k v] its IH]; simpl; [reflexivity|].
  rewrite IH. now destruct (String.eqb k "title").
Qed.

Lemma total_crawl W tostring etree_write self u o st :
  Raising.crawl W (Raising.total W tostring etree_write) self u o st =
  crawl W tostring etree_write self u o st.
Proof.
  unfold Raising.crawl, Raising.crawl_document,
    Raising._generate_meadata_elements, crawl, crawl_document,
    _generate_meadata_elements.
  unfold bind, set_metadata, info, emit, lift, ret, get_metadata. simpl.
  rewrite star_spec. simpl.
  destruct (raised (parse self u)); [reflexivity|].
  rewrite !apply_filters_spec. simpl.
  destruct (chain_result _ _) as [body|]; [|reflexivity].
  rewrite total_metadata_elements.
  unfold Raising.serialize, serialize, bind, info, emit, lift, ret, raise.
  simpl. destruct (truthy o); reflexivity.
Qed.

(** C8 at a title that lxml refuses, and at a [parse] that raises: each
    exception reaches the caller as it is. *)
Lemma crawl_error_propagates_unchanged_witness :
  snd (Raising.crawl unit Example.strict Example.binary_title
         Example.story_url NoOutput Example.fresh) = Raises Example.not_xml /\
  snd (Raising.crawl unit Example.strict Example.offline
         Example.story_url NoOutput Example.fresh) = Raises Example.boom.
Proof.
  split.
  - exact (proj1 (proj2 (proj2 (proj2
      (crawl_error_propagates_unchanged unit Example.strict
         Example.binary_title Example.story_url NoOutput Example.fresh))))
      (E.BODY [Example.p "Once"])
      (Element "body" [("data-f1", "seen")] None [Example.p "Once"])
      Example.not_xml eq_refl eq_refl eq_refl).
  - exact (proj1 (crawl_error_propagates_unchanged unit Example.strict
             Example.offline Example.story_url NoOutput Example.fresh)
             Example.boom eq_refl).
Defined.

(** C8 as the specification states it fails: no reading of the reported
    error can name the stage, since a crawl that fails while parsing and a
    crawl that fails while filtering report the same error. *)
Lemma crawl_error_names_no_stage :
  ~ exists names : exn -> stage,
      forall self u o st e,
        snd (Raising.crawl unit
               (Raising.total unit Example.tostring Example.etree_write)
               self u o st) = Raises e ->
        exists e0,
          Raising.failing_stage unit
            (Raising.total unit Example.tostring Example.etree_write)
            self u o = Some (names e, e0).
Proof.
  intros [names H].
  destruct (H Example.offline Example.story_url NoOutput Example.fresh
              Example.boom eq_refl) as [e1 H1].
  destruct (H Example.picky Example.story_url NoOutput Example.fresh
              Example.boom eq_refl) as [e2 H2].
  cbv in H1, H2. congruence.
Qed.

(** ** The two serializations compared *)

Section HtmlSerializersFacts.

Variable W : Type.
Variable etree_tostring : node -> serialization -> string.
Variable tree_write : node -> output -> serialization -> string * outcome W.

(** Without an output file a crawl returns what [etree.tostring] renders of
    the document less its [meta] content-type tags; with one, it puts into
    the file what [write] renders, as it is. *)
Lemma crawl_html_outputs self u o st :
  match document_of self u with
  | Raises _ => True
  | Return doc =>
      snd (crawl_html W etree_tostring tree_write self u NoOutput st) =
        Return (Str (remove_meta_content_type
                       (etree_tostring doc tostring_arguments))) /\
      (truthy o = true ->
       writes_of
         (trace (fst (crawl_html W etree_tostring tree_write self u o st))) =
       writes_of (trace st) ++
       [(o, fst (tree_write doc o write_arguments))])
  end.
Proof.
  unfold crawl_html. rewrite !crawl_spec. unfold crawl_result. simpl.
  rewrite writes_of_app, crawl_events_writes.
  destruct (document_of self u) as [doc|]; [|exact I].
  split; [reflexivity|]. now intros ->.
Qed.

End HtmlSerializersFacts.

(** C5 at a document whose body holds a [meta] tag that declares the
    content type: the crawl with an output file writes the tag, the crawl
    without one returns the serialization less the tag, so the two are not
    byte-identical. *)
Lemma crawl_string_lacks_meta_content_type :
  let doc :=
    E.HTML (E.HEAD [charset_element])
           (E.BODY [Example.content_type; Example.p "Once"]) in
  let written := Example.etree_tostring doc write_arguments in
  let returned := remove_meta_content_type written in
  snd (crawl_html unit Example.etree_tostring Example.tree_write
         Example.embedded Example.story_url NoOutput Example.fresh) =
    Return (Str returned) /\
  writes_of
    (trace (fst (crawl_html unit Example.etree_tostring Example.tree_write
                   Example.embedded Example.story_url (Filename "story.html")
                   Example.fresh))) =
    [(Filename "story.html", written)] /\
  occurs meta_content_type written = true /\
  occurs meta_content_type returned = false /\
  String.length returned < String.length written /\
  returned <> written.
Proof.
  intros doc written returned.
  pose proof (crawl_html_outputs unit Example.etree_tostring
                Example.tree_write Example.embedded Example.story_url
                (Filename "story.html") Example.fresh) as H.
  change (document_of Example.embedded Example.story_url) with (Return doc)
    in H.
  destruct H as [Hs Hw].
  split; [exact Hs|]. split; [exact (Hw eq_refl)|].
  assert (Hin : occurs meta_content_type written = true)
    by (vm_compute; reflexivity).
  assert (Hout : occurs meta_content_type returned = false)
    by (vm_compute; reflexivity).
  split; [exact Hin|]. split; [exact Hout|].
  split; [vm_compute; lia|].
  intros Heq. rewrite Heq, Hin in Hout. discriminate.
Qed.

(** ** The exceptions of [fetch] *)

Section FetchErrors.

Variable net : Type.
Variable session_get : string -> M net response.
Variable document_fromstring : string -> option string -> outcome document.
Variable make_links_absolute : document -> outcome document.

(** X8.  [fetch] catches nothing and retries nothing.  It raises exactly
    when one of its three calls raises, the request, the parser given the
    content and the URL of the response, or [make_links_absolute] on the
    parsed page, and then with the exception of the first that does; it
    returns exactly the document [make_links_absolute] left; either way the
    session is as the one request left it. *)
Theorem fetch_raises_what_its_calls_raise u w w' :
  let fetched :=
    fetch net session_get document_fromstring make_links_absolute u w in
  (forall e,
     fetched = (w', Raises e) <->
     session_get u w = (w', Raises e) \/
     (exists r,
        session_get u w = (w', Return r) /\
        document_fromstring (r_content r) (Some (r_url r)) = Raises e) \/
     (exists r page,
        session_get u w = (w', Return r) /\
        document_fromstring (r_content r) (Some (r_url r)) = Return page /\
        make_links_absolute page = Raises e)) /\
  (forall doc,
     fetched = (w', Return doc) <->
     exists r page,
       session_get u w = (w', Return r) /\
       document_fromstring (r_content r) (Some (r_url r)) = Return page /\
       make_links_absolute page = Return doc).
Proof.
  intros fetched. unfold fetched, fetch, bind, lift, ret.
  destruct (session_get u w) as [w1 [r|e1]] eqn:Hget.
  - destruct (document_fromstring (r_content r) (Some (r_url r)))
      as [page|e2] eqn:Hparse.
    + destruct (make_links_absolute page) as [doc'|e3] eqn:Hmla.
      * split.
        -- intros e. split; [discriminate|].
           intros [H|[(r' & H & Hp)|(r' & page' & H & Hp & Hm)]];
             try discriminate.
           ++ injection H as _ <-. rewrite Hparse in Hp. discriminate.
           ++ injection H as _ <-. rewrite Hparse in Hp.
              injection Hp as <-. rewrite Hmla in Hm. discriminate.
        -- intros doc. split.
           ++ intros H. injection H as <- <-. now exists r, page.
           ++ intros (r' & page' & H & Hp & Hm). injection H as <- <-.
              rewrite Hparse in Hp. injection Hp as <-.
              rewrite Hmla in Hm. now injection Hm as <-.
      * split.
        -- intros e. split.
           ++ intros H. injection H as <- <-. right. right.
              now exists r, page.
           ++ intros [H|[(r' & H & Hp)|(r' & page' & H & Hp & Hm)]];
                try discriminate.
              ** injection H as _ <-. rewrite Hparse in Hp. discriminate.
              ** injection H as <- <-. rewrite Hparse in Hp.
                 injection Hp as <-. rewrite Hmla in Hm.
                 now injection Hm as <-.
        -- intros doc. split; [discriminate|].
           intros (r' & page' & H & Hp & Hm). injection H as _ <-.
           rewrite Hparse in Hp. injection Hp as <-. rewrite Hmla in Hm.
           discriminate.
    + split.
      * intros e. split.
        -- intros H. injection H as <- <-. right. left. now exists r.
        -- intros [H|[(r' & H & Hp)|(r' & page' & H & Hp & Hm)]];
             try discriminate.
           ++ injection H as <- <-. rewrite Hparse in Hp.
              now injection Hp as <-.
           ++ injection H as _ <-. rewrite Hparse in Hp. discriminate.
      * intros doc. split; [discriminate|].
        intros (r' & page' & H & Hp & _). injection H as _ <-.
        rewrite Hparse in Hp. discriminate.
  - split.
    + intros e. split.
      * intros H. injection H as <- <-. now left.
      * intros [H|[(r' & H & _)|(r' & page' & H & _)]]; try discriminate.
        now injection H as <- <-.
    + intros doc. split; [discriminate|].
      intros (r' & page' & H & _). discriminate.
Qed.

End FetchErrors.

(** X8 with a session that cannot reach the network: [fetch] raises the
    error of the request. *)
Lemma fetch_raises_what_its_calls_raise_witness :
  fetch unit Example.failing_get Example.document_fromstring
    Example.make_links_absolute "https://example.com/story/1" tt
  = (tt, Raises Example.unreachable).
Proof.
  apply (proj2 (proj1 (fetch_raises_what_its_calls_raise unit
                  Example.failing_get Example.document_fromstring
                  Example.make_links_absolute
                  "https://example.com/story/1" tt tt)
                Example.unreachable)).
  left. reflexivity.
Defined.
